(** * bootcamp2025: the CSV pusher, the model builder and its seed variant

    A shallow embedding of the three scripts of the repository
    ([csvupload.py], [python.oaa.py], [seed.python.oaa.py]) and the
    properties of their data mapping and push contract.

    The scripts are straight-line Python that talks to two collaborators:
    the source API (through [requests.get]) and the sink platform (through
    [oaaclient]).  Both are taken as oracles: a record of functions that
    gives, for every call, what the collaborator answers or raises.  What a
    run prints, which sink calls it makes and the status the process exits
    with are computed from the script text. *)

From Stdlib Require Import List String Ascii Strings.Byte NArith ZArith Lia Bool.
From Stdlib Require Import DecimalString.
Import ListNotations.
Local Open Scope string_scope.

Set Implicit Arguments.

(** ** Python values *)

Module Py.

(** The JSON values the scripts handle through [dict.get]: a missing key and
    a JSON null both read as [PyNone]. *)
Inductive pyval : Type :=
| PyNone
| PyStr (s : string)
| PyBool (b : bool).

Definition pyval_eqb (a b : pyval) : bool :=
  match a, b with
  | PyNone, PyNone => true
  | PyStr s, PyStr t => String.eqb s t
  | PyBool x, PyBool y => Bool.eqb x y
  | _, _ => false
  end.

(** Truth value of an object in a condition ([if x:], [x if c else y]). *)
Definition truthy (v : pyval) : bool :=
  match v with
  | PyNone => false
  | PyStr EmptyString => false
  | PyStr _ => true
  | PyBool b => b
  end.

(** [str(v)], as an f-string renders a value. *)
Definition str (v : pyval) : string :=
  match v with
  | PyNone => "None"
  | PyStr s => s
  | PyBool true => "True"
  | PyBool false => "False"
  end.

(** Truth value of a list: a list is true when it has an element. *)
Definition nonempty {A} (l : list A) : bool :=
  match l with [] => false | _ :: _ => true end.

(** [str(n)] for a non-negative integer. *)
Definition str_N (n : N) : string := NilZero.string_of_uint (N.to_uint n).

(** The error the sink client raises: [OAAClientError] carries a machine
    code, a message, a status code and, when the attribute is there, a list
    of details; [printed] is the text [str(e)] gives, which the exception
    class decides. *)
Record client_error : Type := {
  error : string;
  message : string;
  status_code : N;
  details : option (list string);
  printed : string
}.

Inductive exn : Type :=
| OAAClientError (e : client_error)
| OAATemplateException (msg : string)
| KeyError (k : pyval)
| TypeError (msg : string)
| NameError (name : string)
| OSError (msg : string)
| UnicodeDecodeError
| SystemExit (code : N).

(** A dict in insertion order: iteration follows it, and a key occurs once. *)
Definition dict (V : Type) : Type := list (pyval * V).

Fixpoint lookup {V} (k : pyval) (d : dict V) : option V :=
  match d with
  | [] => None
  | (k', v) :: d' => if pyval_eqb k k' then Some v else lookup k d'
  end.

Definition keys {V} (d : dict V) : list pyval := map fst d.

Definition mem {V} (k : pyval) (d : dict V) : bool :=
  match lookup k d with Some _ => true | None => false end.

(** [d[k] = v]: replaces the value in place when the key is there, appends
    the key otherwise. *)
Fixpoint store {V} (k : pyval) (v : V) (d : dict V) : dict V :=
  match d with
  | [] => [(k, v)]
  | (k', v') :: d' =>
      if pyval_eqb k k' then (k, v) :: d' else (k', v') :: store k v d'
  end.

End Py.
Import Py.

(** ** Statements: state, exceptions *)

Module Stmt.

Inductive result (A : Type) : Type :=
| Return (a : A)
| Raise (e : exn).
Arguments Return {A} a.
Arguments Raise {A} e.

(** A statement over a mutable state [S]: it returns or raises, and the
    state keeps the effects made before a raise. *)
Definition M (S A : Type) : Type := S -> result A * S.

Definition ret {S A} (a : A) : M S A := fun s => (Return a, s).
Definition raise {S A} (e : exn) : M S A := fun s => (Raise e, s).
Definition bind {S A B} (m : M S A) (f : A -> M S B) : M S B :=
  fun s => match m s with
           | (Return a, s') => f a s'
           | (Raise e, s') => (Raise e, s')
           end.
Definition get {S} : M S S := fun s => (Return s, s).
Definition modify {S} (f : S -> S) : M S unit := fun s => (Return tt, f s).

(** A pure call that may raise. *)
Definition lift {S A} (r : result A) : M S A := fun s => (r, s).

(** [try: body / except OAAClientError as e: handler]: other exceptions,
    [SystemExit] among them, pass through. *)
Definition try_except {S A} (body : M S A) (handler : client_error -> M S A)
  : M S A :=
  fun s => match body s with
           | (Raise (OAAClientError e), s') => handler e s'
           | r => r
           end.

(** [for x in l: body]. *)
Fixpoint for_each {S A} (l : list A) (body : A -> M S unit) : M S unit :=
  match l with
  | [] => ret tt
  | x :: l' => bind (body x) (fun _ => for_each l' body)
  end.

End Stmt.
Import Stmt.

Declare Scope py_scope.
Delimit Scope py_scope with py.
Notation "x <- m ;; k" := (bind m (fun x => k))
  (at level 61, m at next level, right associativity) : py_scope.
Notation "m ;; k" := (bind m (fun _ => k))
  (at level 61, right associativity) : py_scope.
Local Open Scope py_scope.

(** ** base64 (the standard alphabet of RFC 4648, with padding) *)

Module Base64.
Local Open Scope N_scope.

Definition alphabet : string :=
  "ABCDEFGHIJKLMNOPQRSTUVWXYZabcdefghijklmnopqrstuvwxyz0123456789+/".

Definition pad : byte := byte_of_ascii "="%char.

(** The character of a 6-bit value. *)
Definition b64_char (n : N) : byte :=
  match String.get (N.to_nat n) alphabet with
  | Some c => byte_of_ascii c
  | None => pad
  end.

(** The 6-bit value of a character; [None] outside the alphabet. *)
Definition b64_index (c : ascii) : option N :=
  let n := N_of_ascii c in
  if (65 <=? n) && (n <=? 90) then Some (n - 65)
  else if (97 <=? n) && (n <=? 122) then Some (n - 71)
  else if (48 <=? n) && (n <=? 57) then Some (n + 4)
  else if n =? 43 then Some 62
  else if n =? 47 then Some 63
  else None.

Definition byte_of_N (n : N) : byte :=
  match Byte.of_N (n mod 256) with Some b => b | None => x00 end.

(** The 24-bit group of three bytes. *)
Definition group24 (b1 b2 b3 : byte) : N :=
  Byte.to_N b1 * 65536 + Byte.to_N b2 * 256 + Byte.to_N b3.

(** [base64.b64encode(data)]: three bytes give four characters; one or two
    trailing bytes give two or three characters and padding. *)
Fixpoint b64encode (data : list byte) : list byte :=
  match data with
  | [] => []
  | [b1] =>
      let n := group24 b1 x00 x00 in
      [b64_char (n / 262144); b64_char ((n / 4096) mod 64); pad; pad]
  | [b1; b2] =>
      let n := group24 b1 b2 x00 in
      [b64_char (n / 262144); b64_char ((n / 4096) mod 64);
       b64_char ((n / 64) mod 64); pad]
  | b1 :: b2 :: b3 :: rest =>
      let n := group24 b1 b2 b3 in
      b64_char (n / 262144) :: b64_char ((n / 4096) mod 64)
        :: b64_char ((n / 64) mod 64) :: b64_char (n mod 64)
        :: b64encode rest
  end.

(** [bytes.decode()]: the text of ASCII bytes.  A byte above 127 belongs to
    a multi-byte sequence, which is not decoded here: it raises. *)
Definition bytes_decode (bs : list byte) : result string :=
  if forallb (fun b => Byte.to_N b <? 128) bs
  then Return (string_of_list_byte bs)
  else Raise UnicodeDecodeError.

Definition sextets24 (s1 s2 s3 s4 : N) : N :=
  s1 * 262144 + s2 * 4096 + s3 * 64 + s4.

(** [base64.b64decode(text)] on canonical input: groups of four characters,
    padding only in the last group; anything else is rejected. *)
Fixpoint b64decode (text : string) : option (list byte) :=
  match text with
  | EmptyString => Some []
  | String c1 (String c2 (String c3 (String c4 rest))) =>
      match b64_index c1, b64_index c2 with
      | Some s1, Some s2 =>
          match b64_index c3, b64_index c4 with
          | Some s3, Some s4 =>
              let n := sextets24 s1 s2 s3 s4 in
              match b64decode rest with
              | Some bs =>
                  Some (byte_of_N (n / 65536) :: byte_of_N (n / 256)
                          :: byte_of_N n :: bs)
              | None => None
              end
          | Some s3, None =>
              if Ascii.eqb c4 "="%char && String.eqb rest EmptyString then
                let n := sextets24 s1 s2 s3 0 in
                Some [byte_of_N (n / 65536); byte_of_N (n / 256)]
              else None
          | None, _ =>
              if Ascii.eqb c3 "="%char && Ascii.eqb c4 "="%char
                 && String.eqb rest EmptyString then
                Some [byte_of_N (sextets24 s1 s2 0 0 / 65536)]
              else None
          end
      | _, _ => None
      end
  | _ => None
  end.

(** The 6-bit values, and the check that a value's character is ASCII and
    reads back as the value. *)
Definition sextets : list N := map N.of_nat (seq 0 64).

Definition index_char_ok (n : N) : bool :=
  match b64_index (ascii_of_byte (b64_char n)) with
  | Some m => N.eqb m n
  | None => false
  end && (Byte.to_N (b64_char n) <? 128).

End Base64.

(** ** The template classes of the sink's client library

    [oaaclient.templates] is a dependency of the scripts, not part of the
    repository.  The classes are modelled by the contract the scripts rely
    on: the collections of users, groups and resources are dicts keyed by
    the entity's identifier, the identifier is the [unique_id] when one is
    given and the name otherwise, adding an identifier twice is rejected,
    and a property can be set only after it was defined.

    These three collections do not tell keys apart by case: a key is
    normalised before it is stored or looked up, and the dict holds the
    normalised key.  The operations on them take the normalisation as
    their first argument, [norm]; [lower_key] is the library's, on ASCII
    text. *)

Module Templates.

Inductive OAAPermission : Type :=
| DataRead | DataWrite | DataCreate | DataDelete
| MetadataRead | MetadataWrite | MetadataCreate | MetadataDelete
| NonData | Uncategorized.

Inductive OAAPropertyType : Type :=
| BOOLEAN | NUMBER | STRING | STRING_LIST | TIMESTAMP.

(** [str.lower()] on ASCII text. *)
Definition lower_char (c : ascii) : ascii :=
  let n := N_of_ascii c in
  if ((65 <=? n) && (n <=? 90))%N then ascii_of_N (n + 32) else c.

Fixpoint lower (s : string) : string :=
  match s with
  | EmptyString => EmptyString
  | String c s' => String (lower_char c) (lower s')
  end.

(** The key a case-insensitive collection holds for a key given to it. *)
Definition lower_key (k : pyval) : pyval :=
  match k with
  | PyStr s => PyStr (lower s)
  | _ => k
  end.

(** One entry of a user's [role_assignments]: whether the role applies to
    the whole application ([None] as long as no call said), and the keys
    of the resources it is scoped to, each once. *)
Record RoleAssignment : Type := {
  apply_to_application : option bool;
  assigned_resources : list pyval
}.

(** A user: its groups are kept as texts, each once. *)
Record LocalUser : Type := {
  user_name : pyval;
  user_unique_id : pyval;
  identities : list pyval;
  groups : list string;
  role_assignments : dict RoleAssignment;
  user_properties : dict pyval
}.

Record LocalGroup : Type := {
  group_name : pyval;
  group_unique_id : pyval
}.

Record LocalRole : Type := {
  role_name : string;
  role_unique_id : string;
  role_permissions : list string
}.

Record CustomResource : Type := {
  resource_name : pyval;
  resource_type : string;
  description : pyval;
  resource_properties : dict pyval
}.

Record CustomApplication : Type := {
  name : string;
  application_type : string;
  local_user_properties : dict OAAPropertyType;
  resource_type_properties : list (string * dict OAAPropertyType);
  custom_permissions : dict (list OAAPermission);
  local_roles : dict LocalRole;
  local_users : dict LocalUser;
  local_groups : dict LocalGroup;
  resources : dict CustomResource
}.

(** [CustomApplication(name=..., application_type=...)]. *)
Definition new_application (n t : string) : CustomApplication :=
  {| name := n; application_type := t;
     local_user_properties := []; resource_type_properties := [];
     custom_permissions := []; local_roles := []; local_users := [];
     local_groups := []; resources := [] |}.

Definition set_local_user_properties v (a : CustomApplication) :=
  {| name := name a; application_type := application_type a;
     local_user_properties := v;
     resource_type_properties := resource_type_properties a;
     custom_permissions := custom_permissions a; local_roles := local_roles a;
     local_users := local_users a; local_groups := local_groups a;
     resources := resources a |}.

Definition set_resource_type_properties v (a : CustomApplication) :=
  {| name := name a; application_type := application_type a;
     local_user_properties := local_user_properties a;
     resource_type_properties := v;
     custom_permissions := custom_permissions a; local_roles := local_roles a;
     local_users := local_users a; local_groups := local_groups a;
     resources := resources a |}.

Definition set_custom_permissions v (a : CustomApplication) :=
  {| name := name a; application_type := application_type a;
     local_user_properties := local_user_properties a;
     resource_type_properties := resource_type_properties a;
     custom_permissions := v; local_roles := local_roles a;
     local_users := local_users a; local_groups := local_groups a;
     resources := resources a |}.

Definition set_local_roles v (a : CustomApplication) :=
  {| name := name a; application_type := application_type a;
     local_user_properties := local_user_properties a;
     resource_type_properties := resource_type_properties a;
     custom_permissions := custom_permissions a; local_roles := v;
     local_users := local_users a; local_groups := local_groups a;
     resources := resources a |}.

Definition set_local_users v (a : CustomApplication) :=
  {| name := name a; application_type := application_type a;
     local_user_properties := local_user_properties a;
     resource_type_properties := resource_type_properties a;
     custom_permissions := custom_permissions a; local_roles := local_roles a;
     local_users := v; local_groups := local_groups a;
     resources := resources a |}.

Definition set_local_groups v (a : CustomApplication) :=
  {| name := name a; application_type := application_type a;
     local_user_properties := local_user_properties a;
     resource_type_properties := resource_type_properties a;
     custom_permissions := custom_permissions a; local_roles := local_roles a;
     local_users := local_users a; local_groups := v;
     resources := resources a |}.

Definition set_resources v (a : CustomApplication) :=
  {| name := name a; application_type := application_type a;
     local_user_properties := local_user_properties a;
     resource_type_properties := resource_type_properties a;
     custom_permissions := custom_permissions a; local_roles := local_roles a;
     local_users := local_users a; local_groups := local_groups a;
     resources := v |}.

(** The identifier an entity is filed under. *)
Definition identifier (unique_id entity_name : pyval) : pyval :=
  if truthy unique_id then unique_id else entity_name.

(** [app.property_definitions.define_local_user_property(name, type)]. *)
Definition define_local_user_property (n : string) (t : OAAPropertyType)
  : M CustomApplication unit :=
  modify (fun a =>
    set_local_user_properties (store (PyStr n) t (local_user_properties a)) a).

Fixpoint define_in (rtype : string) (n : string) (t : OAAPropertyType)
  (defs : list (string * dict OAAPropertyType))
  : list (string * dict OAAPropertyType) :=
  match defs with
  | [] => [(rtype, [(PyStr n, t)])]
  | (r, d) :: defs' =>
      if String.eqb r rtype then (r, store (PyStr n) t d) :: defs'
      else (r, d) :: define_in rtype n t defs'
  end.

(** [app.property_definitions.define_resource_property(type, name, type)]. *)
Definition define_resource_property (rtype n : string) (t : OAAPropertyType)
  : M CustomApplication unit :=
  modify (fun a =>
    set_resource_type_properties
      (define_in rtype n t (resource_type_properties a)) a).

Fixpoint resource_property_defined (rtype n : string)
  (defs : list (string * dict OAAPropertyType)) : bool :=
  match defs with
  | [] => false
  | (r, d) :: defs' =>
      if String.eqb r rtype then mem (PyStr n) d
      else resource_property_defined rtype n defs'
  end.

(** [app.add_custom_permission(name, permissions=[...])]. *)
Definition add_custom_permission (n : string) (permissions : list OAAPermission)
  : M CustomApplication unit :=
  a <- get ;;
  if mem (PyStr n) (custom_permissions a)
  then raise (OAATemplateException "custom permission already defined")
  else modify (set_custom_permissions
                 (store (PyStr n) permissions (custom_permissions a))).

(** [app.add_local_role(name, unique_id=..., permissions=[...])]. *)
Definition add_local_role (n unique_id : string) (permissions : list string)
  : M CustomApplication unit :=
  a <- get ;;
  let key := identifier (PyStr unique_id) (PyStr n) in
  if mem key (local_roles a)
  then raise (OAATemplateException "local role already defined")
  else modify (set_local_roles
                 (store key {| role_name := n; role_unique_id := unique_id;
                               role_permissions := permissions |}
                        (local_roles a))).

(** [app.add_local_user(name, unique_id=..., identities=[...])]: the new
    object is filed in [app.local_users] and returned; the reference is its
    key in that dict. *)
Definition add_local_user (norm : pyval -> pyval) (n unique_id : pyval)
  (ids : list pyval) : M CustomApplication pyval :=
  a <- get ;;
  let key := norm (identifier unique_id n) in
  if mem key (local_users a)
  then raise (OAATemplateException "local user already defined")
  else
    modify (set_local_users
              (store key {| user_name := n; user_unique_id := unique_id;
                            identities := ids; groups := [];
                            role_assignments := []; user_properties := [] |}
                     (local_users a))) ;;
    ret key.

(** A method call on the user object a reference points to. *)
Definition update_user (ref : pyval) (f : LocalUser -> LocalUser)
  : M CustomApplication unit :=
  modify (fun a =>
    match lookup ref (local_users a) with
    | Some u => set_local_users (store ref (f u) (local_users a)) a
    | None => a
    end).

(** Adding to a list what it does not have yet. *)
Definition add_once {A} (eqb : A -> A -> bool) (x : A) (l : list A) : list A :=
  if existsb (eqb x) l then l else l ++ [x].

Definition assign_role (role : pyval) (scope : list pyval)
  (apply_to : option bool) (u : LocalUser) : LocalUser :=
  let old := match lookup role (role_assignments u) with
             | Some ra => ra
             | None => {| apply_to_application := None;
                          assigned_resources := [] |}
             end in
  let ra := {| apply_to_application :=
                 match apply_to with
                 | Some b => Some b
                 | None => apply_to_application old
                 end;
               assigned_resources :=
                 fold_left (fun acc r => add_once pyval_eqb r acc) scope
                           (assigned_resources old) |} in
  {| user_name := user_name u; user_unique_id := user_unique_id u;
     identities := identities u; groups := groups u;
     role_assignments := store role ra (role_assignments u);
     user_properties := user_properties u |}.

(** [user.add_role(role, resources=[...], apply_to_application=...)]: the
    flag is left as it is when the argument is not given, and a resource
    the role is already scoped to is not added again. *)
Definition LocalUser_add_role (ref role : pyval) (scope : list pyval)
  (apply_to : option bool) : M CustomApplication unit :=
  update_user ref (assign_role role scope apply_to).

(** [user.set_property(name, value)]. *)
Definition LocalUser_set_property (ref : pyval) (n : string) (v : pyval)
  : M CustomApplication unit :=
  a <- get ;;
  if mem (PyStr n) (local_user_properties a)
  then update_user ref (fun u =>
         {| user_name := user_name u; user_unique_id := user_unique_id u;
            identities := identities u; groups := groups u;
            role_assignments := role_assignments u;
            user_properties := store (PyStr n) v (user_properties u) |})
  else raise (OAATemplateException "unknown property name").

(** [user.add_group(group)]: the group is kept as [str(group)], once. *)
Definition LocalUser_add_group (ref group : pyval) : M CustomApplication unit :=
  update_user ref (fun u =>
    {| user_name := user_name u; user_unique_id := user_unique_id u;
       identities := identities u;
       groups := add_once String.eqb (str group) (groups u);
       role_assignments := role_assignments u;
       user_properties := user_properties u |}).

(** [app.add_local_group(name, unique_id=...)]. *)
Definition add_local_group (norm : pyval -> pyval) (n unique_id : pyval)
  : M CustomApplication unit :=
  a <- get ;;
  let key := norm (identifier unique_id n) in
  if mem key (local_groups a)
  then raise (OAATemplateException "local group already defined")
  else modify (set_local_groups
                 (store key {| group_name := n; group_unique_id := unique_id |}
                        (local_groups a))).

(** [app.add_resource(name, resource_type=...)]: no [unique_id] is given,
    so the resource is filed under its name. *)
Definition add_resource (norm : pyval -> pyval) (n : pyval) (rtype : string)
  : M CustomApplication pyval :=
  a <- get ;;
  let key := norm (identifier PyNone n) in
  if mem key (resources a)
  then raise (OAATemplateException "duplicate resource identifier")
  else
    modify (set_resources
              (store key {| resource_name := n; resource_type := rtype;
                            description := PyNone;
                            resource_properties := [] |}
                     (resources a))) ;;
    ret key.

Definition update_resource (ref : pyval) (f : CustomResource -> CustomResource)
  : M CustomApplication unit :=
  modify (fun a =>
    match lookup ref (resources a) with
    | Some r => set_resources (store ref (f r) (resources a)) a
    | None => a
    end).

(** [resource.description = value]. *)
Definition CustomResource_set_description (ref v : pyval)
  : M CustomApplication unit :=
  update_resource ref (fun r =>
    {| resource_name := resource_name r; resource_type := resource_type r;
       description := v; resource_properties := resource_properties r |}).

(** [resource.set_property(name, value)]. *)
Definition CustomResource_set_property (ref : pyval) (n : string) (v : pyval)
  : M CustomApplication unit :=
  a <- get ;;
  match lookup ref (resources a) with
  | Some r =>
      if resource_property_defined (resource_type r) n
           (resource_type_properties a)
      then update_resource ref (fun r =>
             {| resource_name := resource_name r;
                resource_type := resource_type r;
                description := description r;
                resource_properties :=
                  store (PyStr n) v (resource_properties r) |})
      else raise (OAATemplateException "unknown property name")
  | None => ret tt
  end.

(** [d[k]] on a collection of the application: a reference to the entry
    filed under the normalised key, or [KeyError] with that key. *)
Definition getitem {V} (norm : pyval -> pyval)
  (collection : CustomApplication -> dict V) (k : pyval)
  : M CustomApplication pyval :=
  a <- get ;;
  match lookup (norm k) (collection a) with
  | Some _ => ret (norm k)
  | None => raise (KeyError (norm k))
  end.

End Templates.
Import Templates.

(** ** The process: console, sink calls, exit status *)

Module Process.

(** The JSON body of [csvupload.py]'s POST, [{id, data_source_id, csv_data}]. *)
Record push_request : Type := {
  body_id : pyval;
  body_data_source_id : pyval;
  csv_data : string
}.

(** What a call of the sink's client did on the wire. *)
Inductive sink_call : Type :=
| GetProvider (provider_name : string)
| CreateProvider (provider_name template : string)
| PushApplication (provider_name data_source_name : string)
    (application_object : CustomApplication) (save_json : bool)
| ApiPost (path : string) (body : push_request).

(** The answer to [push_application]: a dict whose [warnings] key may be
    missing. *)
Record push_response : Type := { warnings : option (list string) }.

(** The sink platform, as [oaaclient.client.OAAClient] shows it: what each
    call answers or raises. *)
Record sink : Type := {
  OAAClient : pyval -> pyval -> result unit;
  get_provider : string -> result (option string);
  create_provider : string -> string -> result string;
  push_application :
    string -> string -> CustomApplication -> bool -> result push_response;
  api_post : string -> push_request -> result unit
}.

(** What was written to the error stream: a line, or the traceback the
    interpreter writes for an exception nobody caught. *)
Inductive err_item : Type :=
| ErrLine (line : string)
| Traceback (e : exn).

Record process : Type := {
  stdout : list string;
  stderr : list err_item;
  calls : list sink_call
}.

Definition start : process := {| stdout := []; stderr := []; calls := [] |}.

(** [print(line)]. *)
Definition print (line : string) : M process unit :=
  modify (fun w => {| stdout := stdout w ++ [line]; stderr := stderr w;
                      calls := calls w |}).

(** [print(line, file=sys.stderr)]. *)
Definition eprint (line : string) : M process unit :=
  modify (fun w => {| stdout := stdout w; stderr := stderr w ++ [ErrLine line];
                      calls := calls w |}).

(** A call that reaches the sink: it is recorded, then answers or raises. *)
Definition call {A} (c : sink_call) (answer : result A) : M process A :=
  modify (fun w => {| stdout := stdout w; stderr := stderr w;
                      calls := calls w ++ [c] |}) ;;
  lift answer.

(** [sys.exit(code)]. *)
Definition sys_exit {A} (code : N) : M process A := raise (SystemExit code).

(** [str(e)] of an [OAAClientError]. *)
Definition str_error (e : client_error) : string := printed e.

(** A finished run: what the process left behind and its exit status. *)
Record finished : Type := { final : process; exit_status : N }.

(** Running a script to its end: falling off the end exits 0, [SystemExit]
    exits with its code, any other uncaught exception writes a traceback
    and exits 1. *)
Definition run (script : M process unit) : finished :=
  match script start with
  | (Return _, w) => {| final := w; exit_status := 0 |}
  | (Raise (SystemExit code), w) => {| final := w; exit_status := code |}
  | (Raise e, w) =>
      {| final := {| stdout := stdout w; stderr := stderr w ++ [Traceback e];
                     calls := calls w |};
         exit_status := 1 |}
  end.

(** Statements on a local object run beside the process: a raise leaves
    the object behind. *)
Definition on_object {S A} (obj : S) (m : M S A) : M process (A * S) :=
  fun w => match m obj with
           | (Return a, obj') => (Return (a, obj'), w)
           | (Raise e, _) => (Raise e, w)
           end.

End Process.
Import Process.

(** ** csvupload.py *)

Module Csvupload.

(** The names the module binds before the push, and the builtins it uses. *)
Definition module_names : list string :=
  ["base64"; "json"; "os"; "sys"; "load_dotenv"; "oaautils"; "OAAClient";
   "OAAClientError"; "veza_url"; "veza_api_key"; "data_source_id";
   "provider_id"; "source_csv"; "veza_con"; "f"; "encoded_csv";
   "push_request"; "e"; "print"; "open"; "hasattr"].

(** Reading a global name. *)
Definition load_name (n : string) : M process unit :=
  if existsb (String.eqb n) module_names then ret tt else raise (NameError n).

(** [log.error(msg)]: [log] is read as a global name first. *)
Definition log_error (msg : string) : M process unit :=
  load_name "log" ;;
  eprint msg.

Definition source_csv : string := "sample.csv".

Section Script.
(** The process environment, the file system and the sink. *)
Variable getenv : string -> pyval.
Variable read_file : string -> result (list byte).
Variable veza : sink.

Definition veza_url : pyval := getenv "VEZA_URL".
Definition veza_api_key : pyval := getenv "VEZA_API_KEY".
Definition data_source_id : pyval := getenv "VEZA_Id".
Definition provider_id : pyval := getenv "VEZA_Provider_id".

Definition push_path : string :=
  "/api/v1/providers/custom/" ++ str provider_id ++ "/datasources/"
    ++ str data_source_id ++ ":push_csv".

Definition script : M process unit :=
  print "Connecting to Veza" ;;
  try_except
    (lift (OAAClient veza veza_url veza_api_key))
    (fun e =>
       print "Error connecting to Veza tenant" ;;
       print (str_error e) ;;
       sys_exit 1) ;;
  print "Loading CSV file" ;;
  data <- lift (read_file source_csv) ;;
  let encoded_csv := Base64.b64encode data in
  print "Pushing data to Veza" ;;
  try_except
    (text <- lift (Base64.bytes_decode encoded_csv) ;;
     let push_request :=
       {| body_id := provider_id; body_data_source_id := data_source_id;
          csv_data := text |} in
     call (ApiPost push_path push_request)
          (api_post veza push_path push_request) ;;
     print "Push succeeded")
    (fun e =>
       log_error (error e ++ ": " ++ message e ++ " ("
                    ++ str_N (status_code e) ++ ")") ;;
       match details e with
       | Some ds => for_each ds log_error
       | None => ret tt
       end ;;
       sys_exit 3).
End Script.

(** The body the script posts for a file whose bytes are [data]. *)
Definition body_of (getenv : string -> pyval) (data : list byte)
  : push_request :=
  {| body_id := provider_id getenv;
     body_data_source_id := data_source_id getenv;
     csv_data := string_of_list_byte (Base64.b64encode data) |}.

End Csvupload.

(** ** python.oaa.py: the model builder *)

Module ModelBuilder.

(** The records of the source API, read with [dict.get] (users, teams) or
    by subscript (members). *)
Record user_record : Type := {
  u_name : pyval; u_id : pyval; u_email : pyval; u_role : pyval;
  u_billed : pyval
}.

Record team_record : Type := {
  t_name : pyval; t_id : pyval; t_description : pyval; t_summary : pyval;
  t_default_role : pyval
}.

Record member_record : Type := { m_user_id : pyval; m_role : pyval }.

(** The source API: the [users] and [teams] of the two collection calls,
    and the [members] list answered at a members URL.  Responses are taken
    as well-formed JSON objects that have the key the script subscripts. *)
Record source : Type := {
  users : list user_record;
  teams : list team_record;
  members : string -> list member_record
}.

(** The first [n] characters of a string. *)
Fixpoint prefix (n : nat) (s : string) : string :=
  match n, s with
  | S n', String c s' => String c (prefix n' s')
  | _, _ => EmptyString
  end.

(** [v[:n]]. *)
Definition slice_to (n : nat) (v : pyval) : result pyval :=
  match v with
  | PyStr s => Return (PyStr (prefix n s))
  | PyNone => Raise (TypeError "'NoneType' object is not subscriptable")
  | PyBool _ => Raise (TypeError "'bool' object is not subscriptable")
  end.

(** [x.get(k)] on a dict of property values. *)
Definition dict_get (k : pyval) (d : dict pyval) : pyval :=
  match lookup k d with Some v => v | None => PyNone end.

Definition members_url (team_id : pyval) : string :=
  "https://api.pagerduty.com/teams/" ++ str team_id ++ "/members".

(** Lines 18-23. *)
Definition define_custom_properties : M CustomApplication unit :=
  define_local_user_property "email" STRING ;;
  define_local_user_property "is_billed" BOOLEAN ;;
  define_resource_property "team" "pagerduty_id" STRING ;;
  define_resource_property "team" "summary" STRING ;;
  define_resource_property "team" "default_role" STRING.

(** Lines 25-35. *)
Definition add_permissions : M CustomApplication unit :=
  add_custom_permission "admin"
    [DataWrite; DataRead; DataDelete; MetadataRead; MetadataWrite] ;;
  add_custom_permission "limited_user" [DataRead; MetadataRead] ;;
  add_custom_permission "manager"
    [DataWrite; DataRead; MetadataWrite; MetadataRead] ;;
  add_custom_permission "observer" [DataRead; MetadataRead] ;;
  add_custom_permission "owner"
    [DataWrite; DataRead; DataDelete; MetadataRead; MetadataWrite] ;;
  add_custom_permission "read_only_limited_user" [MetadataRead] ;;
  add_custom_permission "read_only_user" [DataRead; MetadataRead] ;;
  add_custom_permission "responder" [DataWrite; DataRead] ;;
  add_custom_permission "restricted_access" [MetadataRead; MetadataWrite] ;;
  add_custom_permission "user" [DataRead; MetadataRead].

(** Lines 37-46. *)
Definition add_roles : M CustomApplication unit :=
  add_local_role "Global Admin" "admin" ["admin"] ;;
  add_local_role "Responder" "limited_user" ["limited_user"] ;;
  add_local_role "Observer" "observer" ["observer"] ;;
  add_local_role "Account Owner" "owner" ["owner"] ;;
  add_local_role "Limited Stakeholder" "read_only_limited_user"
    ["read_only_limited_user"] ;;
  add_local_role "Full Stakeholder" "read_only_user" ["read_only_user"] ;;
  add_local_role "Restricted Access" "restricted_access"
    ["restricted_access"] ;;
  add_local_role "User" "user" ["user"] ;;
  add_local_role "Manager" "manager" ["manager"].

(** Lines 51-60, the body of the user loop. *)
Definition add_user (norm : pyval -> pyval) (user : user_record)
  : M CustomApplication unit :=
  new_user <- add_local_user norm (u_name user) (u_id user) [u_email user] ;;
  LocalUser_add_role new_user (u_role user) [] (Some true) ;;
  LocalUser_set_property new_user "email" (u_email user) ;;
  LocalUser_set_property new_user "is_billed" (u_billed user).

(** Lines 65-66, the body of the group loop. *)
Definition add_group (norm : pyval -> pyval) (team : team_record)
  : M CustomApplication unit :=
  add_local_group norm (t_name team) (t_id team).

(** Line 73: [team.get('description')[:255] if team.get('description')
    else None]. *)
Definition resource_description (team : team_record) : result pyval :=
  if truthy (t_description team) then slice_to 255 (t_description team)
  else Return PyNone.

(** Lines 69-77, the body of the resource loop. *)
Definition add_team_resource (norm : pyval -> pyval) (team : team_record)
  : M CustomApplication unit :=
  resource <- add_resource norm (t_name team) "team" ;;
  d <- lift (resource_description team) ;;
  CustomResource_set_description resource d ;;
  CustomResource_set_property resource "pagerduty_id" (t_id team) ;;
  CustomResource_set_property resource "summary" (t_summary team) ;;
  CustomResource_set_property resource "default_role" (t_default_role team).

(** Lines 86-90, the body of the member loop. *)
Definition assign_member (norm : pyval -> pyval) (resource team_id : pyval)
  (member : member_record) : M CustomApplication unit :=
  u <- getitem norm local_users (m_user_id member) ;;
  LocalUser_add_role u (m_role member) [resource] None ;;
  u' <- getitem norm local_users (m_user_id member) ;;
  LocalUser_add_group u' team_id.

(** Lines 80-90, the body of the loop over [app.resources]. *)
Definition assign_team (norm : pyval -> pyval) (pagerduty : source)
  (team : pyval) : M CustomApplication unit :=
  resource <- getitem norm resources team ;;
  a <- get ;;
  let team_id :=
    match lookup resource (resources a) with
    | Some r => dict_get (PyStr "pagerduty_id") (resource_properties r)
    | None => PyNone
    end in
  for_each (members pagerduty (members_url team_id))
           (assign_member norm resource team_id).

(** Lines 18-46: the schema and the catalog of permissions and roles. *)
Definition declare_catalog : M CustomApplication unit :=
  define_custom_properties ;;
  add_permissions ;;
  add_roles.

(** Lines 48-77: users, groups and resources from the source API. *)
Definition add_entities (norm : pyval -> pyval) (pagerduty : source)
  : M CustomApplication unit :=
  for_each (users pagerduty) (add_user norm) ;;
  for_each (teams pagerduty) (add_group norm) ;;
  for_each (teams pagerduty) (add_team_resource norm).

(** Lines 79-90: [for team in app.resources: ...]. *)
Definition assign_roles (norm : pyval -> pyval) (pagerduty : source)
  : M CustomApplication unit :=
  a <- get ;;
  for_each (keys (resources a)) (assign_team norm pagerduty).

(** Line 16: [CustomApplication(name='Sample App',
    application_type='PagerDuty')]. *)
Definition new_app : CustomApplication :=
  new_application "Sample App" "PagerDuty".

(** Lines 16-90: the graph, built on the [app] object. *)
Definition build (norm : pyval -> pyval) (pagerduty : source)
  : M CustomApplication unit :=
  declare_catalog ;;
  add_entities norm pagerduty ;;
  assign_roles norm pagerduty.

(** *** What the loops file in the application

    The entry each loop body leaves in its collection, used to state what
    a run built. *)

Definition user_key (norm : pyval -> pyval) (r : user_record) : pyval :=
  norm (identifier (u_id r) (u_name r)).

Definition built_user (r : user_record) : LocalUser :=
  {| user_name := u_name r; user_unique_id := u_id r;
     identities := [u_email r]; groups := [];
     role_assignments :=
       [(u_role r, {| apply_to_application := Some true;
                      assigned_resources := [] |})];
     user_properties :=
       [(PyStr "email", u_email r); (PyStr "is_billed", u_billed r)] |}.

Definition user_entry (norm : pyval -> pyval) (r : user_record)
  : pyval * LocalUser :=
  (user_key norm r, built_user r).

Definition group_key (norm : pyval -> pyval) (t : team_record) : pyval :=
  norm (identifier (t_id t) (t_name t)).

Definition group_entry (norm : pyval -> pyval) (t : team_record)
  : pyval * LocalGroup :=
  (group_key norm t,
   {| group_name := t_name t; group_unique_id := t_id t |}).

Definition description_of (t : team_record) : pyval :=
  match resource_description t with
  | Return d => d
  | Raise _ => PyNone
  end.

Definition built_resource (t : team_record) : CustomResource :=
  {| resource_name := t_name t; resource_type := "team";
     description := description_of t;
     resource_properties :=
       [(PyStr "pagerduty_id", t_id t); (PyStr "summary", t_summary t);
        (PyStr "default_role", t_default_role t)] |}.

Definition resource_key (norm : pyval -> pyval) (t : team_record) : pyval :=
  norm (t_name t).

Definition resource_entry (norm : pyval -> pyval) (t : team_record)
  : pyval * CustomResource :=
  (resource_key norm t, built_resource t).

(** The application after the catalog was declared. *)
Definition catalog : CustomApplication :=
  Eval vm_compute in snd (declare_catalog new_app).

(** The application after the entity loops, when none of them raised. *)
Definition entities (norm : pyval -> pyval) (pagerduty : source)
  : CustomApplication :=
  set_resources (map (resource_entry norm) (teams pagerduty))
    (set_local_groups (map (group_entry norm) (teams pagerduty))
       (set_local_users (map (user_entry norm) (users pagerduty)) catalog)).

(** What the member loop leaves of a user: it adds roles and groups, and
    keeps the rest, the application-scope flag of each role included. *)
Definition user_kept (u u' : LocalUser) : Prop :=
  user_name u' = user_name u
  /\ user_unique_id u' = user_unique_id u
  /\ identities u' = identities u
  /\ user_properties u' = user_properties u
  /\ forall role ra,
       lookup role (role_assignments u) = Some ra ->
       exists ra',
         lookup role (role_assignments u') = Some ra'
         /\ apply_to_application ra' = apply_to_application ra.

Definition users_kept (d d' : dict LocalUser) : Prop :=
  keys d' = keys d
  /\ forall k u,
       lookup k d = Some u ->
       exists u', lookup k d' = Some u' /\ user_kept u u'.

(** The members the loop fetches for a resource. *)
Definition team_members (pagerduty : source) (r : CustomResource)
  : list member_record :=
  members pagerduty
    (members_url (dict_get (PyStr "pagerduty_id") (resource_properties r))).

(** The rights the permissions of the catalog are drawn from. *)
Definition catalog_rights : list OAAPermission :=
  [DataRead; DataWrite; DataDelete; MetadataRead; MetadataWrite].

(** The schema the loop bodies need: the properties they set are defined. *)
Definition schema_defined (a : CustomApplication) : bool :=
  mem (PyStr "email") (local_user_properties a)
  && mem (PyStr "is_billed") (local_user_properties a)
  && resource_property_defined "team" "pagerduty_id"
       (resource_type_properties a)
  && resource_property_defined "team" "summary" (resource_type_properties a)
  && resource_property_defined "team" "default_role"
       (resource_type_properties a).

Section Script.
Variable norm : pyval -> pyval.
Variable getenv : string -> pyval.
Variable pagerduty : source.
Variable veza : sink.

Definition veza_url : pyval := getenv "VEZA_URL".
Definition veza_api_key : pyval := getenv "VEZA_API_KEY".

Definition main : M process unit :=
  built <- on_object new_app (build norm pagerduty) ;;
  let app := snd built in
  let provider_name := "Lab-PagerDuty" in
  lift (OAAClient veza veza_url veza_api_key) ;;
  provider <- call (GetProvider provider_name)
                   (get_provider veza provider_name) ;;
  match provider with
  | Some _ => ret tt
  | None =>
      call (CreateProvider provider_name "application")
           (create_provider veza provider_name "application") ;;
      ret tt
  end ;;
  let data_source_name := name app ++ " (" ++ application_type app ++ ")" in
  try_except
    (response <- call (PushApplication provider_name data_source_name
                         app false)
                      (push_application veza provider_name data_source_name
                         app false) ;;
     match warnings response with
     | Some ws =>
         if nonempty ws then
           print "-- Push succeeded with warnings:" ;;
           for_each ws (fun e => print ("  - " ++ e))
         else ret tt
     | None => ret tt
     end)
    (fun e =>
       eprint ("-- Error: " ++ error e ++ ": " ++ message e ++ " ("
                 ++ str_N (status_code e) ++ ")") ;;
       match details e with
       | Some ds => for_each ds (fun d => eprint ("  -- " ++ d))
       | None => ret tt
       end).
End Script.

End ModelBuilder.

(** ** seed.python.oaa.py: the seed variant *)

Module Seed.

Section Script.
Variable getenv : string -> pyval.
Variable veza : sink.

Definition veza_url : pyval := getenv "VEZA_URL".
Definition veza_api_key : pyval := getenv "VEZA_API_KEY".

Definition main : M process unit :=
  let app := new_application "Sample App" "PagerDuty" in
  let provider_name := "Sample-PagerDuty" in
  lift (OAAClient veza veza_url veza_api_key) ;;
  provider <- call (GetProvider provider_name)
                   (get_provider veza provider_name) ;;
  match provider with
  | Some _ => ret tt
  | None =>
      call (CreateProvider provider_name "application")
           (create_provider veza provider_name "application") ;;
      ret tt
  end ;;
  let data_source_name := name app ++ " (" ++ application_type app ++ ")" in
  try_except
    (response <- call (PushApplication provider_name data_source_name
                         app false)
                      (push_application veza provider_name data_source_name
                         app false) ;;
     match warnings response with
     | Some ws =>
         if nonempty ws then
           print "-- Push succeeded with warnings:" ;;
           for_each ws (fun e => print ("  - " ++ e))
         else ret tt
     | None => ret tt
     end)
    (fun e =>
       eprint ("-- Error: " ++ error e ++ ": " ++ message e ++ " ("
                 ++ str_N (status_code e) ++ ")") ;;
       match details e with
       | Some ds => for_each ds (fun d => eprint ("  -- " ++ d))
       | None => ret tt
       end).
End Script.

End Seed.


(** ** What the push phase leaves behind

    The last lines of [python.oaa.py] and [seed.python.oaa.py] resolve the
    provider and push the application.  These definitions name what such a
    run writes and which calls it makes; the properties below relate them to
    the two [main]s. *)

Module Push.

(** f'{app.name} ({app.application_type})'. *)
Definition data_source_name_of (app : CustomApplication) : string :=
  name app ++ " (" ++ application_type app ++ ")".

(** Fetch-or-create: one lookup by name, and one creation when the lookup
    finds nothing. *)
Definition provider_resolution (provider_name : string)
  (found : option string) : list sink_call :=
  GetProvider provider_name
    :: match found with
       | Some _ => []
       | None => [CreateProvider provider_name "application"]
       end.

(** The sink answers the provider calls without raising. *)
Definition provider_resolved (veza : sink) (provider_name : string)
  (found : option string) : Prop :=
  get_provider veza provider_name = Return found
  /\ (found = None ->
      exists p, create_provider veza provider_name "application" = Return p).

Definition push_call (provider_name : string) (app : CustomApplication)
  : sink_call :=
  PushApplication provider_name (data_source_name_of app) app false.

Definition error_line (e : client_error) : string :=
  "-- Error: " ++ error e ++ ": " ++ message e ++ " ("
    ++ str_N (status_code e) ++ ")".

Definition detail_list (e : client_error) : list string :=
  match details e with Some ds => ds | None => [] end.

(** What the handler writes for a refused push. *)
Definition error_report (e : client_error) : list err_item :=
  ErrLine (error_line e)
    :: map (fun d => ErrLine ("  -- " ++ d)) (detail_list e).

(** What is printed for an accepted push: the warnings, when there are
    any. *)
Definition warning_report (response : push_response) : list string :=
  match warnings response with
  | Some ws =>
      if nonempty ws
      then "-- Push succeeded with warnings:" :: map (fun e => "  - " ++ e) ws
      else []
  | None => []
  end.

(** The push phase from a fresh process, by what the sink answers. *)
Definition push_outcome (veza : sink) (provider_name : string)
  (app : CustomApplication) (found : option string) : result unit * process :=
  let made := (provider_resolution provider_name found
                 ++ [push_call provider_name app])%list in
  match push_application veza provider_name (data_source_name_of app)
          app false with
  | Return response =>
      (Return tt, {| stdout := warning_report response; stderr := [];
                     calls := made |})
  | Raise (OAAClientError e) =>
      (Return tt, {| stdout := []; stderr := error_report e;
                     calls := made |})
  | Raise e => (Raise e, {| stdout := []; stderr := []; calls := made |})
  end.

End Push.
Import Push.

(** ** Sample runs

    Concrete collaborators on which the properties below are exercised. *)

Module Scenarios.
Import ModelBuilder.

(** No variable of the environment is set. *)
Definition env_unset : string -> pyval := fun _ => PyNone.

Definition user_U1 : user_record :=
  {| u_name := PyStr "Ann"; u_id := PyStr "U1"; u_email := PyStr "a@x.com";
     u_role := PyStr "responder"; u_billed := PyBool true |}.

Definition team_T1 : team_record :=
  {| t_name := PyStr "Ops"; t_id := PyStr "T1";
     t_description := PyStr "on call"; t_summary := PyStr "Ops";
     t_default_role := PyStr "manager" |}.

Definition members_of_T1 (who : list member_record) (url : string)
  : list member_record :=
  if String.eqb url "https://api.pagerduty.com/teams/T1/members"
  then who else [].

(** One user, one team, the user a member of the team. *)
Definition one_team : source :=
  {| users := [user_U1]; teams := [team_T1];
     members :=
       members_of_T1 [{| m_user_id := PyStr "U1";
                         m_role := PyStr "manager" |}] |}.


Fixpoint replicate (n : nat) (c : ascii) : string :=
  match n with
  | O => EmptyString
  | S n' => String c (replicate n' c)
  end.

(** A team whose description has 1100 characters. *)
Definition wordy_team : team_record :=
  {| t_name := PyStr "Ops"; t_id := PyStr "T1";
     t_description := PyStr (replicate 1100 "x"%char);
     t_summary := PyStr "Ops"; t_default_role := PyStr "manager" |}.

Definition wordy : source :=
  {| users := [user_U1]; teams := [wordy_team];
     members := members_of_T1 [] |}.

Definition refusal : client_error :=
  {| error := "INVALID_ARGUMENT"; message := "bad payload";
     status_code := 400;
     details := Some ["users[0]: unknown role"; "teams[0]: no owner"];
     printed := "INVALID_ARGUMENT: bad payload" |}.

(** A sink that has no provider yet and accepts the push, with the given
    answer. *)
Definition veza_answering (response : push_response) : sink :=
  {| OAAClient := fun _ _ => Return tt;
     get_provider := fun _ => Return None;
     create_provider := fun _ _ => Return "provider-1";
     push_application := fun _ _ _ _ => Return response;
     api_post := fun _ _ => Return tt |}.

Definition veza_accepting : sink := veza_answering {| warnings := None |}.

Definition veza_warning : sink :=
  veza_answering {| warnings := Some ["identity a@x.com not found"] |}.

(** A sink that refuses every push. *)
Definition veza_refusing : sink :=
  {| OAAClient := fun _ _ => Return tt;
     get_provider := fun _ => Return None;
     create_provider := fun _ _ => Return "provider-1";
     push_application := fun _ _ _ _ => Raise (OAAClientError refusal);
     api_post := fun _ _ => Raise (OAAClientError refusal) |}.

Definition ten_bytes : list byte := list_byte_of_string "id,name,ok".

(** A file system that has [sample.csv], ten bytes long. *)
Definition one_file (path : string) : result (list byte) :=
  if String.eqb path "sample.csv" then Return ten_bytes
  else Raise (OSError "No such file or directory").

(** The applications the sample sources build. *)
Definition built_one_team : CustomApplication :=
  Eval vm_compute in snd (build lower_key one_team new_app).

Definition built_wordy : CustomApplication :=
  Eval vm_compute in snd (build lower_key wordy new_app).

End Scenarios.


(** Further sample collaborators. *)

Module MoreScenarios.
Import ModelBuilder Scenarios.

Definition unauthenticated : client_error :=
  {| error := "UNAUTHENTICATED"; message := "invalid token";
     status_code := 401; details := Some [];
     printed := "UNAUTHENTICATED invalid token (401)" |}.

(** A sink whose client cannot be constructed. *)
Definition veza_unreachable : sink :=
  {| OAAClient := fun _ _ => Raise (OAAClientError unauthenticated);
     get_provider := fun _ => Return None;
     create_provider := fun _ _ => Return "provider-1";
     push_application := fun _ _ _ _ => Return {| warnings := None |};
     api_post := fun _ _ => Return tt |}.

(** A sink whose provider lookup fails. *)
Definition veza_lookup_failing : sink :=
  {| OAAClient := fun _ _ => Return tt;
     get_provider := fun _ => Raise (OAAClientError unauthenticated);
     create_provider := fun _ _ => Return "provider-1";
     push_application := fun _ _ _ _ => Return {| warnings := None |};
     api_post := fun _ _ => Return tt |}.

(** A sink that already has the provider. *)
Definition veza_known : sink :=
  {| OAAClient := fun _ _ => Return tt;
     get_provider := fun _ => Return (Some "provider-1");
     create_provider := fun _ _ => Return "provider-2";
     push_application := fun _ _ _ _ => Return {| warnings := None |};
     api_post := fun _ _ => Return tt |}.

(** A file system without [sample.csv]. *)
Definition no_file (path : string) : result (list byte) :=
  Raise (OSError "No such file or directory").

End MoreScenarios.

(** ** What the member loop adds *)

Module Membership.
Import ModelBuilder.

(** A user after more members were processed: no group and no resource of
    a role assignment is lost. *)
Definition user_grown (u u' : LocalUser) : Prop :=
  incl (groups u) (groups u')
  /\ forall role ra,
       lookup role (role_assignments u) = Some ra ->
       exists ra',
         lookup role (role_assignments u') = Some ra'
         /\ incl (assigned_resources ra) (assigned_resources ra').

Definition users_grown (d d' : dict LocalUser) : Prop :=
  forall k u,
    lookup k d = Some u -> exists u', lookup k d' = Some u' /\ user_grown u u'.

(** The member's user, found under the normalised user id, holds the
    member's role on the resource and belongs to the group named by the
    text of the team's id. *)
Definition member_assigned (norm : pyval -> pyval) (d : dict LocalUser)
  (resource team_id : pyval) (m : member_record) : Prop :=
  exists u ra,
    lookup (norm (m_user_id m)) d = Some u
    /\ lookup (m_role m) (role_assignments u) = Some ra
    /\ In resource (assigned_resources ra)
    /\ In (str team_id) (groups u).

End Membership.

(** * Properties *)

Unset Implicit Arguments.

(** ** Facts: dicts *)

Module PyFacts.
Local Open Scope list_scope.

Lemma pyval_eqb_spec a b : reflect (a = b) (pyval_eqb a b).
Proof.
  destruct a as [|s|x], b as [|t|y]; simpl; try (constructor; congruence).
  - destruct (String.eqb_spec s t); constructor; congruence.
  - destruct x, y; constructor; congruence.
Qed.

Lemma pyval_eqb_refl a : pyval_eqb a a = true.
Proof. destruct (pyval_eqb_spec a a); congruence. Qed.

Lemma lookup_None_iff V (d : dict V) k :
  lookup k d = None <-> ~ In k (keys d).
Proof.
  induction d as [|[k' v] d IH]; simpl.
  - tauto.
  - destruct (pyval_eqb_spec k k') as [->|Hne].
    + split; [discriminate | tauto].
    + rewrite IH. split; [intros H [E|E]; [congruence | tauto] | tauto].
Qed.

Lemma lookup_Some_in V (d : dict V) k v :
  lookup k d = Some v -> In k (keys d).
Proof.
  intros H. destruct (in_dec (fun a b => reflect_dec _ _ (pyval_eqb_spec a b))
                        k (keys d)) as [Hin|Hout]; [assumption|].
  apply lookup_None_iff in Hout. congruence.
Qed.

Lemma store_fresh V (d : dict V) k v :
  lookup k d = None -> store k v d = d ++ [(k, v)].
Proof.
  induction d as [|[k' v'] d IH]; simpl; [reflexivity|].
  destruct (pyval_eqb k k'); [discriminate|].
  intros H. now rewrite IH.
Qed.

Lemma lookup_snoc V (d : dict V) k v :
  lookup k d = None -> lookup k (d ++ [(k, v)]) = Some v.
Proof.
  induction d as [|[k' v'] d IH]; simpl.
  - now rewrite pyval_eqb_refl.
  - destruct (pyval_eqb k k'); [discriminate | exact IH].
Qed.

Lemma store_snoc V (d : dict V) k v v' :
  lookup k d = None -> store k v' (d ++ [(k, v)]) = d ++ [(k, v')].
Proof.
  induction d as [|[k' w] d IH]; simpl.
  - now rewrite pyval_eqb_refl.
  - destruct (pyval_eqb k k'); [discriminate|].
    intros H. now rewrite IH.
Qed.

Lemma lookup_app_l V (d d' : dict V) k v :
  lookup k d = Some v -> lookup k (d ++ d') = Some v.
Proof.
  induction d as [|[k' w] d IH]; simpl; [discriminate|].
  destruct (pyval_eqb k k'); [tauto | exact IH].
Qed.

Lemma lookup_app_r V (d d' : dict V) k :
  lookup k d = None -> lookup k (d ++ d') = lookup k d'.
Proof.
  induction d as [|[k' w] d IH]; simpl; [reflexivity|].
  destruct (pyval_eqb k k'); [discriminate | exact IH].
Qed.

Lemma lookup_store_same V (d : dict V) k v : lookup k (store k v d) = Some v.
Proof.
  induction d as [|[k' w] d IH]; simpl.
  - now rewrite pyval_eqb_refl.
  - destruct (pyval_eqb k k') eqn:E; simpl.
    + now rewrite pyval_eqb_refl.
    + now rewrite E.
Qed.

Lemma lookup_store_other V (d : dict V) k k' v :
  k' <> k -> lookup k' (store k v d) = lookup k' d.
Proof.
  intros Hne. induction d as [|[k0 w] d IH]; simpl.
  - destruct (pyval_eqb_spec k' k); [contradiction | reflexivity].
  - destruct (pyval_eqb_spec k k0) as [->|Hk]; simpl.
    + destruct (pyval_eqb_spec k' k0); [contradiction | reflexivity].
    + destruct (pyval_eqb k' k0); [reflexivity | exact IH].
Qed.

Lemma keys_store_present V (d : dict V) k v w :
  lookup k d = Some w -> keys (store k v d) = keys d.
Proof.
  induction d as [|[k' w'] d IH]; simpl; [discriminate|].
  destruct (pyval_eqb_spec k k') as [->|Hne]; simpl; [reflexivity|].
  intros H. f_equal. now apply IH.
Qed.

Lemma keys_app V (d d' : dict V) : keys (d ++ d') = keys d ++ keys d'.
Proof. apply map_app. Qed.

Lemma lookup_in_nodup V (d : dict V) k v :
  NoDup (keys d) -> In (k, v) d -> lookup k d = Some v.
Proof.
  induction d as [|[k' w] d IH]; simpl; [tauto|].
  intros Hnd [E|Hin].
  - inversion E; subst. now rewrite pyval_eqb_refl.
  - inversion Hnd as [|? ? Hout Hnd']; subst.
    destruct (pyval_eqb_spec k k') as [->|Hne].
    + exfalso. apply Hout. change (In (fst (k', v)) (map fst d)).
      now apply in_map.
    + now apply IH.
Qed.


Lemma nodup_snoc A (l : list A) x : NoDup l -> ~ In x l -> NoDup (l ++ [x]).
Proof.
  intros Hnd Hout. apply NoDup_app; [assumption | repeat constructor; simpl; tauto |].
  intros a Ha [<-|[]]. contradiction.
Qed.

(** Lower-casing a lower-cased key changes nothing. *)
Lemma lower_char_idem c : lower_char (lower_char c) = lower_char c.
Proof.
  destruct c as [[] [] [] [] [] [] [] []]; reflexivity.
Qed.

Lemma lower_idem s : lower (lower s) = lower s.
Proof.
  induction s as [|c s IH]; cbn; [reflexivity|].
  now rewrite lower_char_idem, IH.
Qed.

Lemma lower_key_idem k : lower_key (lower_key k) = lower_key k.
Proof. destruct k; cbn; try reflexivity. now rewrite lower_idem. Qed.

End PyFacts.
Import PyFacts.

(** ** Facts: statements *)

Module StmtFacts.
Local Open Scope list_scope.

Lemma bind_return S A B (m : M S A) (f : A -> M S B) s a s' :
  m s = (Return a, s') -> bind m f s = f a s'.
Proof. intros H. unfold bind. now rewrite H. Qed.

Lemma bind_raise S A B (m : M S A) (f : A -> M S B) s e s' :
  m s = (Raise e, s') -> bind m f s = (Raise e, s').
Proof. intros H. unfold bind. now rewrite H. Qed.

(** A loop that only prints never raises. *)
Lemma for_each_print A (f : A -> string) l w :
  for_each l (fun x => print (f x)) w
  = (Return tt, {| stdout := stdout w ++ map f l; stderr := stderr w;
                   calls := calls w |}).
Proof.
  revert w. induction l as [|x l IH]; intros w; simpl.
  - rewrite app_nil_r. now destruct w.
  - unfold bind at 1. unfold print at 1, modify. rewrite IH. simpl.
    now rewrite <- app_assoc.
Qed.

Lemma for_each_eprint A (f : A -> string) l w :
  for_each l (fun x => eprint (f x)) w
  = (Return tt, {| stdout := stdout w;
                   stderr := stderr w ++ map (fun x => ErrLine (f x)) l;
                   calls := calls w |}).
Proof.
  revert w. induction l as [|x l IH]; intros w; simpl.
  - rewrite app_nil_r. now destruct w.
  - unfold bind at 1. unfold eprint at 1, modify. rewrite IH. simpl.
    now rewrite <- app_assoc.
Qed.

End StmtFacts.
Import StmtFacts.

(** ** Facts: base64 *)

Module Base64Facts.
Import Base64.
Local Open Scope N_scope.

Ltac Zify.zify_post_hook ::= Z.to_euclidean_division_equations.

Lemma three_step_ind (A : Type) (P : list A -> Prop) :
  P [] -> (forall a, P [a]) -> (forall a b, P [a; b]) ->
  (forall a b c l, P l -> P (a :: b :: c :: l)) ->
  forall l, P l.
Proof.
  intros H0 H1 H2 H3 l.
  assert (H : P l /\ (forall a, P (a :: l)) /\ (forall a b, P (a :: b :: l))).
  { induction l as [|x l IH].
    - repeat split; auto.
    - destruct IH as (IH0 & IH1 & IH2). repeat split; auto. }
  apply H.
Qed.

Lemma sextet_in n : n < 64 -> In n sextets.
Proof.
  intros H. unfold sextets. apply in_map_iff. exists (N.to_nat n). split.
  - apply N2Nat.id.
  - apply in_seq. lia.
Qed.

Lemma index_char_all : forallb index_char_ok sextets = true.
Proof. vm_compute. reflexivity. Qed.

Lemma b64_index_char n :
  n < 64 -> b64_index (ascii_of_byte (b64_char n)) = Some n.
Proof.
  intros H. pose proof index_char_all as Hall.
  rewrite forallb_forall in Hall. specialize (Hall n (sextet_in _ H)).
  unfold index_char_ok in Hall. apply andb_true_iff in Hall as [Hall _].
  destruct (b64_index (ascii_of_byte (b64_char n))) as [m|]; [|discriminate].
  apply N.eqb_eq in Hall. now subst.
Qed.

Lemma b64_char_ascii n : n < 64 -> (Byte.to_N (b64_char n) <? 128) = true.
Proof.
  intros H. pose proof index_char_all as Hall.
  rewrite forallb_forall in Hall. specialize (Hall n (sextet_in _ H)).
  unfold index_char_ok in Hall. now apply andb_true_iff in Hall as [_ Hall].
Qed.

Lemma byte_bound b : Byte.to_N b < 256.
Proof. pose proof (Byte.to_N_bounded b). lia. Qed.

Lemma byte_of_N_to_N b n : n mod 256 = Byte.to_N b -> byte_of_N n = b.
Proof. intros H. unfold byte_of_N. rewrite H, Byte.of_to_N. reflexivity. Qed.


Section Group.
Variables b1 b2 b3 : byte.
Let n := group24 b1 b2 b3.

Lemma group24_sextets :
  n / 262144 < 64 /\ (n / 4096) mod 64 < 64 /\ (n / 64) mod 64 < 64
  /\ n mod 64 < 64.
Proof.
  subst n. unfold group24.
  pose proof (byte_bound b1). pose proof (byte_bound b2).
  pose proof (byte_bound b3). repeat split; lia.
Qed.

Lemma group24_bytes :
  (n / 65536) mod 256 = Byte.to_N b1 /\ (n / 256) mod 256 = Byte.to_N b2
  /\ n mod 256 = Byte.to_N b3.
Proof.
  subst n. unfold group24.
  pose proof (byte_bound b1). pose proof (byte_bound b2).
  pose proof (byte_bound b3). repeat split; lia.
Qed.

Lemma sextets24_group24 :
  sextets24 (n / 262144) ((n / 4096) mod 64) ((n / 64) mod 64) (n mod 64)
  = n.
Proof. subst n. unfold sextets24, group24. lia. Qed.

Lemma sextets24_low_bits :
  sextets24 (n / 262144) ((n / 4096) mod 64) ((n / 64) mod 64) 0
  = n - n mod 64
  /\ sextets24 (n / 262144) ((n / 4096) mod 64) 0 0 = n - n mod 4096.
Proof. subst n. unfold sextets24, group24. split; lia. Qed.
End Group.

Lemma string_of_list_byte_cons b l :
  string_of_list_byte (b :: l) = String (ascii_of_byte b) (string_of_list_byte l).
Proof. reflexivity. Qed.

Lemma pad_not_in_alphabet : b64_index (ascii_of_byte pad) = None.
Proof. reflexivity. Qed.

Lemma decode_group b1 b2 b3 rest :
  b64decode (string_of_list_byte (b64encode (b1 :: b2 :: b3 :: rest)))
  = match b64decode (string_of_list_byte (b64encode rest)) with
    | Some bs => Some (b1 :: b2 :: b3 :: bs)
    | None => None
    end.
Proof.
  destruct (group24_sextets b1 b2 b3) as (H1 & H2 & H3 & H4).
  destruct (group24_bytes b1 b2 b3) as (B1 & B2 & B3).
  cbn [b64encode]; cbv zeta; rewrite !string_of_list_byte_cons;
  cbn [b64decode].
  rewrite !b64_index_char by assumption.
  rewrite sextets24_group24.
  rewrite (@byte_of_N_to_N _ _ B1), (@byte_of_N_to_N _ _ B2),
    (@byte_of_N_to_N _ _ B3).
  reflexivity.
Qed.

Lemma decode_two b1 b2 :
  b64decode (string_of_list_byte (b64encode [b1; b2])) = Some [b1; b2].
Proof.
  destruct (group24_sextets b1 b2 x00) as (H1 & H2 & H3 & _).
  destruct (group24_bytes b1 b2 x00) as (B1 & B2 & B3).
  destruct (sextets24_low_bits b1 b2 x00) as (L & _).
  cbn [b64encode]; cbv zeta; rewrite !string_of_list_byte_cons;
  cbn [b64decode].
  rewrite !b64_index_char by assumption.
  rewrite pad_not_in_alphabet.
  replace (Ascii.eqb (ascii_of_byte pad) "="%char && String.eqb EmptyString EmptyString)%bool
    with true by reflexivity.
  cbv zeta. rewrite L.
  set (n := group24 b1 b2 x00) in *.
  assert (E : n mod 64 = 0).
  { change (Byte.to_N x00) with 0 in B3. lia. }
  rewrite E, N.sub_0_r.
  rewrite (@byte_of_N_to_N _ _ B1), (@byte_of_N_to_N _ _ B2). reflexivity.
Qed.

Lemma decode_one b1 :
  b64decode (string_of_list_byte (b64encode [b1])) = Some [b1].
Proof.
  destruct (group24_sextets b1 x00 x00) as (H1 & H2 & _ & _).
  destruct (group24_bytes b1 x00 x00) as (B1 & B2 & B3).
  destruct (sextets24_low_bits b1 x00 x00) as (_ & L).
  cbn [b64encode]; cbv zeta; rewrite !string_of_list_byte_cons;
  cbn [b64decode].
  rewrite !b64_index_char by assumption.
  rewrite pad_not_in_alphabet.
  replace (Ascii.eqb (ascii_of_byte pad) "="%char && Ascii.eqb (ascii_of_byte pad) "="%char
           && String.eqb EmptyString EmptyString)%bool
    with true by reflexivity.
  rewrite L.
  set (n := group24 b1 x00 x00) in *.
  assert (E : n mod 4096 = 0).
  { change (Byte.to_N x00) with 0 in B2, B3. lia. }
  rewrite E, N.sub_0_r.
  rewrite (@byte_of_N_to_N _ _ B1). reflexivity.
Qed.

(** Decoding what [b64encode] wrote gives the bytes back. *)
Lemma b64decode_b64encode data :
  b64decode (string_of_list_byte (b64encode data)) = Some data.
Proof.
  induction data as [| b1 | b1 b2 | b1 b2 b3 rest IH] using three_step_ind.
  - reflexivity.
  - apply decode_one.
  - apply decode_two.
  - rewrite decode_group, IH. reflexivity.
Qed.

(** [b64encode] writes ASCII only, so [.decode()] returns its text. *)
Lemma b64encode_ascii data :
  forallb (fun b => Byte.to_N b <? 128) (b64encode data) = true.
Proof.
  induction data as [| b1 | b1 b2 | b1 b2 b3 rest IH] using three_step_ind.
  - reflexivity.
  - destruct (group24_sextets b1 x00 x00) as (H1 & H2 & _ & _).
    cbn [b64encode forallb]. rewrite !b64_char_ascii by assumption.
    reflexivity.
  - destruct (group24_sextets b1 b2 x00) as (H1 & H2 & H3 & _).
    cbn [b64encode forallb]. rewrite !b64_char_ascii by assumption.
    reflexivity.
  - destruct (group24_sextets b1 b2 b3) as (H1 & H2 & H3 & H4).
    cbn [b64encode forallb]. rewrite !b64_char_ascii by assumption.
    rewrite IH. reflexivity.
Qed.

Lemma bytes_decode_b64encode data :
  bytes_decode (b64encode data)
  = Return (string_of_list_byte (b64encode data)).
Proof. unfold bytes_decode. rewrite b64encode_ascii. reflexivity. Qed.

End Base64Facts.

(** ** The CSV pusher *)

Module CsvuploadFacts.
Import Csvupload Base64Facts.
Local Open Scope list_scope.

Section Run.
Variable getenv : string -> pyval.
Variable read_file : string -> result (list byte).
Variable veza : sink.

Hypothesis connected :
  OAAClient veza (veza_url getenv) (veza_api_key getenv) = Return tt.

Variable data : list byte.
Hypothesis file_read : read_file source_csv = Return data.

(** Up to the POST the run is the same whatever the sink answers. *)
Lemma script_reaches_post :
  script getenv read_file veza start
  = try_except
      (call (ApiPost (push_path getenv) (body_of getenv data))
            (api_post veza (push_path getenv) (body_of getenv data)) ;;
       print "Push succeeded")
      (fun e =>
         log_error ((error e ++ ": " ++ message e ++ " ("
                      ++ str_N (status_code e) ++ ")")%string) ;;
         match details e with
         | Some ds => for_each ds log_error
         | None => ret tt
         end ;;
         sys_exit 3)
      {| stdout := ["Connecting to Veza"; "Loading CSV file";
                    "Pushing data to Veza"];
         stderr := []; calls := [] |}.
Proof.
  unfold script.
  unfold bind at 1. unfold print at 1, modify.
  unfold bind at 1. unfold try_except at 1, lift at 1. rewrite connected.
  unfold bind at 1. unfold print at 1, modify.
  unfold bind at 1. unfold lift at 1. rewrite file_read.
  unfold bind at 1. unfold print at 1, modify.
  unfold try_except. unfold bind at 1, lift at 1.
  rewrite bytes_decode_b64encode. reflexivity.
Qed.

(** A push the sink accepts: the confirmation is printed and the process
    exits 0. *)
Lemma push_accepted :
  api_post veza (push_path getenv) (body_of getenv data) = Return tt ->
  run (script getenv read_file veza)
  = {| final := {| stdout := ["Connecting to Veza"; "Loading CSV file";
                              "Pushing data to Veza"; "Push succeeded"];
                   stderr := [];
                   calls := [ApiPost (push_path getenv) (body_of getenv data)] |};
       exit_status := 0 |}.
Proof.
  intros Hpost. unfold run. rewrite script_reaches_post.
  unfold try_except, bind, call, bind, modify, lift. rewrite Hpost.
  reflexivity.
Qed.

(** A push the sink refuses: the handler's first statement reads the
    global [log], which the module never binds. *)
Lemma push_refused e :
  api_post veza (push_path getenv) (body_of getenv data)
    = Raise (OAAClientError e) ->
  run (script getenv read_file veza)
  = {| final := {| stdout := ["Connecting to Veza"; "Loading CSV file";
                              "Pushing data to Veza"];
                   stderr := [Traceback (NameError "log")];
                   calls := [ApiPost (push_path getenv) (body_of getenv data)] |};
       exit_status := 1 |}.
Proof.
  intros Hpost. unfold run. rewrite script_reaches_post.
  unfold try_except, bind, call, bind, modify, lift. rewrite Hpost.
  reflexivity.
Qed.

(** The POST is made, with the same body, whatever the sink answers. *)
Lemma post_is_made :
  calls (final (run (script getenv read_file veza)))
  = [ApiPost (push_path getenv) (body_of getenv data)].
Proof.
  unfold run. rewrite script_reaches_post.
  unfold try_except, bind, call, bind, modify, lift.
  destruct (api_post veza (push_path getenv) (body_of getenv data))
    as [[]|[e| | | | | | |]]; reflexivity.
Qed.
End Run.

(** A refused connection: the two lines are printed and the process exits
    1 before the file is opened. *)
Lemma connection_refused getenv read_file veza e :
  OAAClient veza (veza_url getenv) (veza_api_key getenv)
    = Raise (OAAClientError e) ->
  run (script getenv read_file veza)
  = {| final := {| stdout := ["Connecting to Veza";
                              "Error connecting to Veza tenant";
                              str_error e];
                   stderr := []; calls := [] |};
       exit_status := 1 |}.
Proof.
  intros Hc. unfold run, script.
  unfold bind at 1. unfold print at 1, modify.
  unfold bind at 1. unfold try_except at 1, lift at 1. rewrite Hc.
  reflexivity.
Qed.

End CsvuploadFacts.

(** ** The model builder *)

Module ModelBuilderFacts.
Import ModelBuilder.
Local Open Scope list_scope.

Ltac app_fields :=
  cbn [name application_type local_user_properties resource_type_properties
       custom_permissions local_roles local_users local_groups resources
       set_local_users set_local_groups set_resources].

(** Rewriting with a key [Hl : lookup k d = None] that was just filed. *)
Ltac filed Hl extra :=
  repeat (app_fields; cbn [resource_type];
          first [ rewrite (@store_fresh _ _ _ _ Hl)
                | rewrite (@lookup_snoc _ _ _ _ Hl)
                | rewrite (@store_snoc _ _ _ _ _ Hl)
                | extra ]).

Section Norm.
Variable norm : pyval -> pyval.

Lemma declare_catalog_returns : declare_catalog new_app = (Return tt, catalog).
Proof. vm_compute. reflexivity. Qed.

Lemma schema_defined_catalog : schema_defined catalog = true.
Proof. vm_compute. reflexivity. Qed.

(** *** The user loop *)

Lemma add_user_step a r :
  schema_defined a = true ->
  add_user norm r a
  = match lookup (user_key norm r) (local_users a) with
    | None =>
        (Return tt, set_local_users (local_users a ++ [user_entry norm r]) a)
    | Some _ =>
        (Raise (OAATemplateException "local user already defined"), a)
    end.
Proof.
  unfold schema_defined. rewrite !andb_true_iff.
  intros [[[[He Hb] _] _] _].
  unfold add_user, add_local_user. unfold bind at 1. unfold bind at 1.
  unfold get at 1. fold (user_key norm r). unfold mem at 1.
  destruct (lookup (user_key norm r) (local_users a)) eqn:Hl; [reflexivity|].
  unfold bind at 1, modify at 1, ret at 1.
  unfold LocalUser_add_role, LocalUser_set_property, update_user.
  unfold bind, modify, get.
  filed Hl ltac:(first [rewrite He | rewrite Hb]).
  reflexivity.
Qed.

Lemma add_users_loop rs : forall a a',
  schema_defined a = true ->
  NoDup (keys (local_users a)) ->
  for_each rs (add_user norm) a = (Return tt, a') ->
  a' = set_local_users (local_users a ++ map (user_entry norm) rs) a
  /\ NoDup (keys (local_users a ++ map (user_entry norm) rs)).
Proof.
  induction rs as [|r rs IH]; intros a a' Hs Hnd; simpl.
  - unfold ret. intros [= <-]. rewrite app_nil_r. split; [now destruct a | assumption].
  - unfold bind. rewrite add_user_step by exact Hs.
    destruct (lookup (user_key norm r) (local_users a)) eqn:Hl; [discriminate|].
    intros Hrun. apply IH in Hrun; app_fields.
    + revert Hrun. app_fields. rewrite <- app_assoc. exact (fun H => H).
    + exact Hs.
    + rewrite keys_app. apply nodup_snoc; [assumption|].
      now apply lookup_None_iff.
Qed.

(** *** The group loop *)

Lemma add_group_step a t :
  add_group norm t a
  = match lookup (group_key norm t) (local_groups a) with
    | None =>
        (Return tt, set_local_groups (local_groups a ++ [group_entry norm t]) a)
    | Some _ =>
        (Raise (OAATemplateException "local group already defined"), a)
    end.
Proof.
  unfold add_group, add_local_group. unfold bind, get.
  fold (group_key norm t). unfold mem.
  destruct (lookup (group_key norm t) (local_groups a)) eqn:Hl; [reflexivity|].
  unfold modify. rewrite (@store_fresh _ _ _ _ Hl). reflexivity.
Qed.

Lemma add_groups_loop ts : forall a a',
  NoDup (keys (local_groups a)) ->
  for_each ts (add_group norm) a = (Return tt, a') ->
  a' = set_local_groups (local_groups a ++ map (group_entry norm) ts) a
  /\ NoDup (keys (local_groups a ++ map (group_entry norm) ts)).
Proof.
  induction ts as [|t ts IH]; intros a a' Hnd; simpl.
  - unfold ret. intros [= <-]. rewrite app_nil_r. split; [now destruct a | assumption].
  - unfold bind. rewrite add_group_step.
    destruct (lookup (group_key norm t) (local_groups a)) eqn:Hl; [discriminate|].
    intros Hrun. apply IH in Hrun; app_fields.
    + revert Hrun. app_fields. rewrite <- app_assoc. exact (fun H => H).
    + rewrite keys_app. apply nodup_snoc; [assumption|].
      now apply lookup_None_iff.
Qed.

(** *** The resource loop *)

Lemma add_team_resource_step a t :
  schema_defined a = true ->
  add_team_resource norm t a
  = match lookup (resource_key norm t) (resources a) with
    | None =>
        match resource_description t with
        | Return _ =>
            (Return tt, set_resources (resources a ++ [resource_entry norm t]) a)
        | Raise e =>
            (Raise e,
             set_resources
               (resources a ++
                [(resource_key norm t,
                  {| resource_name := t_name t;
                     resource_type := "team";
                     description := PyNone;
                     resource_properties := [] |})]) a)
        end
    | Some _ =>
        (Raise (OAATemplateException "duplicate resource identifier"), a)
    end.
Proof.
  unfold schema_defined. rewrite !andb_true_iff.
  intros [[[[_ _] Hp] Hsum] Hr].
  unfold add_team_resource, add_resource. unfold bind at 1. unfold bind at 1.
  unfold get at 1.
  change (norm (identifier PyNone (t_name t))) with (resource_key norm t).
  unfold mem at 1.
  destruct (lookup (resource_key norm t) (resources a)) eqn:Hl; [reflexivity|].
  unfold bind at 1, modify at 1, ret at 1.
  rewrite (@store_fresh _ _ _ _ Hl).
  unfold bind at 1, lift at 1. unfold resource_entry, built_resource, description_of.
  destruct (resource_description t) as [d|e]; [|reflexivity].
  unfold CustomResource_set_description, CustomResource_set_property,
    update_resource.
  unfold bind, modify, get.
  filed Hl ltac:(first [rewrite Hp | rewrite Hsum | rewrite Hr]).
  reflexivity.
Qed.

Lemma add_team_resources_loop ts : forall a a',
  schema_defined a = true ->
  NoDup (keys (resources a)) ->
  for_each ts (add_team_resource norm) a = (Return tt, a') ->
  a' = set_resources (resources a ++ map (resource_entry norm) ts) a
  /\ NoDup (keys (resources a ++ map (resource_entry norm) ts)).
Proof.
  induction ts as [|t ts IH]; intros a a' Hs Hnd; simpl.
  - unfold ret. intros [= <-]. rewrite app_nil_r. split; [now destruct a | assumption].
  - unfold bind. rewrite add_team_resource_step by exact Hs.
    destruct (lookup (resource_key norm t) (resources a)) eqn:Hl; [discriminate|].
    destruct (resource_description t) as [d|e]; [|discriminate].
    intros Hrun. apply IH in Hrun; app_fields.
    + revert Hrun. app_fields. rewrite <- app_assoc. exact (fun H => H).
    + exact Hs.
    + rewrite keys_app. apply nodup_snoc; [assumption|].
      now apply lookup_None_iff.
Qed.

(** *** The three entity loops together *)

Lemma add_entities_returns src a :
  add_entities norm src catalog = (Return tt, a) ->
  a = entities norm src
  /\ NoDup (map (user_key norm) (users src))
  /\ NoDup (map (group_key norm) (teams src))
  /\ NoDup (map (resource_key norm) (teams src)).
Proof.
  unfold add_entities. unfold bind at 1.
  destruct (for_each (users src) (add_user norm) catalog) as [[[]|e] a1] eqn:Hu;
    [|discriminate].
  apply add_users_loop in Hu; [|apply schema_defined_catalog|constructor].
  destruct Hu as [-> Hnu]. unfold bind at 1.
  match goal with |- context [for_each _ (add_group norm) ?s] =>
    destruct (for_each (teams src) (add_group norm) s) as [[[]|e] a2] eqn:Hg end;
    [|discriminate].
  apply add_groups_loop in Hg; [|constructor].
  destruct Hg as [-> Hng].
  intros Hr. apply add_team_resources_loop in Hr;
    [|apply schema_defined_catalog|constructor].
  destruct Hr as [-> Hnr]. cbn in Hnu, Hng, Hnr |- *.
  unfold keys in *. rewrite map_map in Hnu, Hng, Hnr.
  repeat split; assumption.
Qed.

(** *** The member loop *)

Lemma user_kept_refl u : user_kept u u.
Proof. repeat split. intros role ra H. now exists ra. Qed.

Lemma user_kept_trans u v w : user_kept u v -> user_kept v w -> user_kept u w.
Proof.
  intros (N1 & U1 & I1 & P1 & R1) (N2 & U2 & I2 & P2 & R2).
  repeat split; try congruence.
  intros role ra H. destruct (R1 _ _ H) as (ra1 & H1 & E1).
  destruct (R2 _ _ H1) as (ra2 & H2 & E2). exists ra2. split; congruence.
Qed.

Lemma users_kept_refl d : users_kept d d.
Proof.
  split; [reflexivity|]. intros k u H. exists u. split; [assumption|].
  apply user_kept_refl.
Qed.

Lemma users_kept_trans d1 d2 d3 :
  users_kept d1 d2 -> users_kept d2 d3 -> users_kept d1 d3.
Proof.
  intros [K1 H1] [K2 H2]. split; [congruence|].
  intros k u H. destruct (H1 _ _ H) as (u1 & L1 & E1).
  destruct (H2 _ _ L1) as (u2 & L2 & E2). exists u2. split; [assumption|].
  eapply user_kept_trans; eassumption.
Qed.

Lemma users_kept_store d k u u' :
  lookup k d = Some u -> user_kept u u' -> users_kept d (store k u' d).
Proof.
  intros Hl Hk. split.
  - eapply keys_store_present; eassumption.
  - intros k0 u0 H0. destruct (pyval_eqb_spec k0 k) as [->|Hne].
    + rewrite lookup_store_same. exists u'. split; [reflexivity|]. congruence.
    + rewrite lookup_store_other by assumption. exists u0.
      split; [assumption | apply user_kept_refl].
Qed.

Lemma assign_role_kept role scope u :
  user_kept u (assign_role role scope None u).
Proof.
  repeat split. intros r ra H. cbn [assign_role role_assignments].
  destruct (pyval_eqb_spec r role) as [->|Hne].
  - rewrite lookup_store_same, H. eexists. split; reflexivity.
  - rewrite lookup_store_other by assumption. now exists ra.
Qed.

Lemma assign_member_step res tid m a :
  match lookup (norm (m_user_id m)) (local_users a) with
  | None =>
      assign_member norm res tid m a
      = (Raise (KeyError (norm (m_user_id m))), a)
  | Some _ =>
      exists d',
        assign_member norm res tid m a = (Return tt, set_local_users d' a)
        /\ users_kept (local_users a) d'
  end.
Proof.
  unfold assign_member, getitem, LocalUser_add_role, LocalUser_add_group,
    update_user.
  destruct (lookup (norm (m_user_id m)) (local_users a)) as [u|] eqn:Hl.
  - unfold bind, get, modify, ret.
    repeat first [rewrite Hl | rewrite lookup_store_same | progress app_fields].
    eexists. split; [reflexivity|].
    eapply users_kept_trans.
    + eapply users_kept_store; [exact Hl | apply assign_role_kept].
    + eapply users_kept_store; [apply lookup_store_same|].
      repeat split. intros r ra H. now exists ra.
  - unfold bind, get, raise. now rewrite Hl.
Qed.

(** The loop over one team's members: it returns when every member is a
    known user, and raises [KeyError] at the first one that is not. *)
Lemma assign_members_loop res tid ms : forall a,
  exists d',
    users_kept (local_users a) d'
    /\ ((for_each ms (assign_member norm res tid) a
           = (Return tt, set_local_users d' a)
         /\ forall m, In m ms ->
                      In (norm (m_user_id m)) (keys (local_users a)))
        \/ exists m,
             In m ms /\ ~ In (norm (m_user_id m)) (keys (local_users a))
             /\ for_each ms (assign_member norm res tid) a
                = (Raise (KeyError (norm (m_user_id m))),
                   set_local_users d' a)).
Proof.
  induction ms as [|m ms IH]; intros a.
  - exists (local_users a). split; [apply users_kept_refl|]. left.
    split; [now destruct a | intros m []].
  - pose proof (assign_member_step res tid m a) as Hstep.
    destruct (lookup (norm (m_user_id m)) (local_users a)) as [u|] eqn:Hl.
    + destruct Hstep as (d1 & Hrun & Hk1).
      destruct (IH (set_local_users d1 a)) as (d2 & Hk2 & Hrest).
      revert Hk2 Hrest. app_fields. intros Hk2 Hrest.
      exists d2. split; [eapply users_kept_trans; eassumption|].
      cbn [for_each]. unfold bind. rewrite Hrun.
      destruct Hrest as [[Hret Hall] | (m' & Hin & Hout & Hraise)].
      * left. split; [exact Hret|].
        intros m0 [<-|Hin]; [eapply lookup_Some_in; eassumption|].
        destruct Hk1 as [E _]. rewrite <- E. now apply Hall.
      * right. exists m'. split; [now right|]. split; [|exact Hraise].
        destruct Hk1 as [E _]. now rewrite <- E.
    + exists (local_users a). split; [apply users_kept_refl|]. right.
      exists m. split; [now left|]. split; [now apply lookup_None_iff|].
      cbn [for_each]. unfold bind. rewrite Hstep. now destruct a.
Qed.

(** The body of the loop over the resources, by whether the key is filed. *)
Lemma assign_team_found src k a r :
  lookup (norm k) (resources a) = Some r ->
  assign_team norm src k a
  = for_each (team_members src r)
      (assign_member norm (norm k)
         (dict_get (PyStr "pagerduty_id") (resource_properties r))) a.
Proof.
  intros Hl. unfold assign_team, getitem, bind, get, ret.
  repeat first [rewrite Hl | progress cbn beta iota]. reflexivity.
Qed.

Lemma assign_team_missing src k a :
  lookup (norm k) (resources a) = None ->
  assign_team norm src k a = (Raise (KeyError (norm k)), a).
Proof.
  intros Hl. unfold assign_team, getitem, bind, get, raise.
  now rewrite Hl.
Qed.

(** Whatever the loop over the resources does, it leaves the application
    as it was but for the users, and they keep what they had. *)
Lemma assign_teams_frame src ks : forall a,
  exists r d',
    for_each ks (assign_team norm src) a = (r, set_local_users d' a)
    /\ users_kept (local_users a) d'.
Proof.
  induction ks as [|k ks IH]; intros a.
  - exists (Return tt), (local_users a). split; [now destruct a|].
    apply users_kept_refl.
  - cbn [for_each]. unfold bind.
    destruct (lookup (norm k) (resources a)) as [r|] eqn:Hl.
    + rewrite (assign_team_found src k a r Hl).
      destruct (assign_members_loop (norm k)
                  (dict_get (PyStr "pagerduty_id") (resource_properties r))
                  (team_members src r) a)
        as (d1 & Hk1 & [[Hret _] | (m & _ & _ & Hraise)]).
      * rewrite Hret.
        destruct (IH (set_local_users d1 a)) as (r2 & d2 & Hrun & Hk2).
        revert Hrun Hk2. app_fields. intros Hrun Hk2.
        exists r2, d2. split; [exact Hrun|].
        eapply users_kept_trans; eassumption.
      * rewrite Hraise. eexists. exists d1. split; [reflexivity | exact Hk1].
    + rewrite (assign_team_missing src k a Hl).
      eexists. exists (local_users a). split; [now destruct a|].
      apply users_kept_refl.
Qed.


(** *** What the entity loops can raise *)

Lemma schema_defined_set_local_users d a :
  schema_defined (set_local_users d a) = schema_defined a.
Proof. reflexivity. Qed.






(** *** The whole build *)

Lemma build_phases src :
  build norm src new_app
  = match add_entities norm src catalog with
    | (Return _, e) => assign_roles norm src e
    | (Raise x, s) => (Raise x, s)
    end.
Proof.
  unfold build. unfold bind at 1. rewrite declare_catalog_returns.
  unfold bind at 1. destruct (add_entities norm src catalog) as [[[]|x] s];
    reflexivity.
Qed.

Lemma keys_entities src :
  keys (local_users (entities norm src)) = map (user_key norm) (users src)
  /\ keys (local_groups (entities norm src))
     = map (group_key norm) (teams src)
  /\ keys (resources (entities norm src))
     = map (resource_key norm) (teams src).
Proof.
  unfold entities, keys. app_fields. rewrite !map_map. repeat split.
Qed.

(** After the entity loops the member loop only touches the users, and
    they keep what the user loop gave them. *)
Lemma assign_roles_frame src :
  exists r d',
    assign_roles norm src (entities norm src)
    = (r, set_local_users d' (entities norm src))
    /\ users_kept (map (user_entry norm) (users src)) d'.
Proof.
  destruct (assign_teams_frame src (keys (resources (entities norm src)))
              (entities norm src)) as (r & d' & Hrun & Hk).
  exists r, d'. split; [exact Hrun | exact Hk].
Qed.


Lemma build_returns src a :
  build norm src new_app = (Return tt, a) ->
  NoDup (map (user_key norm) (users src))
  /\ NoDup (map (group_key norm) (teams src))
  /\ NoDup (map (resource_key norm) (teams src))
  /\ exists d',
       a = set_local_users d' (entities norm src)
       /\ users_kept (map (user_entry norm) (users src)) d'.
Proof.
  rewrite build_phases.
  destruct (add_entities norm src catalog) as [[[]|x] e] eqn:He;
    [|discriminate].
  apply add_entities_returns in He as (-> & Hu & Hg & Hr).
  intros Hrun. repeat (split; [assumption|]).
  destruct (assign_roles_frame src) as (r & d' & Hframe & Hkept).
  exists d'. split; [|exact Hkept].
  rewrite Hframe in Hrun. injection Hrun as _ Ha. symmetry. exact Ha.
Qed.

End Norm.
End ModelBuilderFacts.

(** ** The push phase of the two builders *)

Module PushFacts.
Local Open Scope list_scope.

Ltac run_push Hc Hget Hcreate found :=
  unfold bind at 1; unfold lift at 1; rewrite Hc;
  unfold bind at 1; unfold call at 1, bind at 1, modify at 1, lift at 1;
  rewrite Hget;
  unfold push_outcome, push_call, data_source_name_of, provider_resolution,
    warning_report, error_report, detail_list, error_line;
  destruct found;
  [ | let c := fresh "c" in let Hp := fresh "Hp" in
      destruct (Hcreate eq_refl) as [c Hp] ];
  cbn [stdout stderr calls Process.start app];
  unfold bind at 1;
  [ unfold ret at 1
  | unfold bind at 1; unfold call at 1, bind at 1, modify at 1, lift at 1;
    match goal with
    | H : create_provider _ _ _ = Return _ |- _ => rewrite H
    end;
    unfold ret at 1 ];
  cbn [stdout stderr calls app];
  unfold try_except, bind at 1, call at 1, bind at 1, modify at 1, lift at 1;
  cbn [stdout stderr calls app];
  match goal with
  | |- context [push_application ?v ?n ?d ?a ?b] =>
      let ws := fresh "ws" in let e := fresh "e" in
      destruct (push_application v n d a b)
        as [[[ws|]]|[e| | | | | | |]]; try reflexivity;
      [ destruct ws; [reflexivity|];
        cbn [nonempty warnings]; unfold bind at 1, print at 1, modify at 1;
        rewrite for_each_print; reflexivity
      | unfold bind at 1, eprint at 1, modify at 1;
        destruct (details e);
        [ rewrite for_each_eprint; reflexivity | reflexivity ] ]
  end.

Lemma seed_main_outcome getenv veza found :
  OAAClient veza (Seed.veza_url getenv) (Seed.veza_api_key getenv)
    = Return tt ->
  provider_resolved veza "Sample-PagerDuty" found ->
  Seed.main getenv veza start
  = push_outcome veza "Sample-PagerDuty"
      (new_application "Sample App" "PagerDuty") found.
Proof.
  intros Hc [Hget Hcreate]. unfold Seed.main. cbv zeta.
  run_push Hc Hget Hcreate found.
Qed.


Lemma main_outcome norm getenv src veza a found :
  ModelBuilder.build norm src ModelBuilder.new_app = (Return tt, a) ->
  OAAClient veza (ModelBuilder.veza_url getenv)
    (ModelBuilder.veza_api_key getenv) = Return tt ->
  provider_resolved veza "Lab-PagerDuty" found ->
  ModelBuilder.main norm getenv src veza start
  = push_outcome veza "Lab-PagerDuty" a found.
Proof.
  intros Hb Hc [Hget Hcreate]. unfold ModelBuilder.main.
  unfold bind at 1. unfold on_object at 1. rewrite Hb. cbn [snd]. cbv zeta.
  run_push Hc Hget Hcreate found.
Qed.


(** The calls of a run that reached the push phase. *)
Lemma calls_push_outcome script veza provider_name a found :
  script start = push_outcome veza provider_name a found ->
  calls (final (run script))
  = provider_resolution provider_name found ++ [push_call provider_name a].
Proof.
  intros H. unfold run. rewrite H. unfold push_outcome.
  destruct (push_application veza provider_name (data_source_name_of a) a
              false) as [r|[e| | | | | | |]]; reflexivity.
Qed.

End PushFacts.

(** * The specification's properties *)

Module Spec.
Import ModelBuilder Scenarios ModelBuilderFacts PushFacts.
Local Open Scope list_scope.

(** ** Push errors of the model builder *)

(** C1, as the specification states it, fails: there is a run of the model
    builder whose push is refused and whose process exits with status 0. *)
Lemma refused_push_exits_zero :
  ~ (forall norm getenv src veza a found e,
       build norm src new_app = (Return tt, a) ->
       OAAClient veza (ModelBuilder.veza_url getenv)
         (ModelBuilder.veza_api_key getenv) = Return tt ->
       provider_resolved veza "Lab-PagerDuty" found ->
       push_application veza "Lab-PagerDuty" (data_source_name_of a) a false
         = Raise (OAAClientError e) ->
       exit_status (run (ModelBuilder.main norm getenv src veza)) <> 0%N).
Proof.
  intros H.
  apply (H lower_key env_unset one_team veza_refusing built_one_team None refusal).
  - vm_compute. reflexivity.
  - reflexivity.
  - split; [reflexivity | intros _; eexists; reflexivity].
  - reflexivity.
  - vm_compute. reflexivity.
Qed.

(** C1 (amended): when the push of the model builder raises a push/API
    error, the run writes the error's code, message and status code on one
    line of the error stream, then one line per detail, prints nothing,
    and the process exits with status 0. *)
Theorem refused_push_reported norm getenv src veza a found e :
  build norm src new_app = (Return tt, a) ->
  OAAClient veza (ModelBuilder.veza_url getenv)
    (ModelBuilder.veza_api_key getenv) = Return tt ->
  provider_resolved veza "Lab-PagerDuty" found ->
  push_application veza "Lab-PagerDuty" (data_source_name_of a) a false
    = Raise (OAAClientError e) ->
  run (ModelBuilder.main norm getenv src veza)
  = {| final :=
         {| stdout := [];
            stderr :=
              ErrLine ("-- Error: " ++ error e ++ ": " ++ message e ++ " ("
                         ++ str_N (status_code e) ++ ")")%string
                :: map (fun d => ErrLine ("  -- " ++ d)%string)
                       (detail_list e);
            calls := provider_resolution "Lab-PagerDuty" found
                       ++ [push_call "Lab-PagerDuty" a] |};
       exit_status := 0 |}.
Proof.
  intros Hb Hc Hp Hpush. unfold run.
  rewrite (main_outcome norm getenv src veza a found Hb Hc Hp).
  unfold push_outcome. rewrite Hpush. reflexivity.
Qed.

Lemma refused_push_reported_witness :
  run (ModelBuilder.main lower_key env_unset one_team veza_refusing)
  = {| final :=
         {| stdout := [];
            stderr :=
              [ErrLine "-- Error: INVALID_ARGUMENT: bad payload (400)";
               ErrLine "  -- users[0]: unknown role";
               ErrLine "  -- teams[0]: no owner"];
            calls := provider_resolution "Lab-PagerDuty" None
                       ++ [push_call "Lab-PagerDuty" built_one_team] |};
       exit_status := 0 |}.
Proof.
  apply (refused_push_reported lower_key env_unset one_team veza_refusing
           built_one_team None refusal).
  - vm_compute. reflexivity.
  - reflexivity.
  - split; [reflexivity | intros _; eexists; reflexivity].
  - reflexivity.
Defined.

(** ** The CSV pusher *)

(** C2 at a run whose push is refused: the handler reads the global [log],
    which [csvupload.py] never binds, so the run ends in an uncaught
    [NameError]: the error's code, message and details are not written and
    the exit status is 1, not 3. *)
Theorem csv_refused_push_run :
  run (Csvupload.script env_unset one_file veza_refusing)
  = {| final :=
         {| stdout := ["Connecting to Veza"; "Loading CSV file";
                       "Pushing data to Veza"];
            stderr := [Traceback (NameError "log")];
            calls := [ApiPost (Csvupload.push_path env_unset)
                        (Csvupload.body_of env_unset ten_bytes)] |};
       exit_status := 1 |}.
Proof. vm_compute. reflexivity. Qed.

(** C7: for every content of the source file, the one call the CSV pusher
    makes posts the body [{id, data_source_id, csv_data}] with the provider
    and data source identifiers of the environment, and decoding
    [csv_data] from base64 gives the bytes of the file back. *)
Theorem csv_data_round_trip getenv read_file veza data :
  OAAClient veza (Csvupload.veza_url getenv) (Csvupload.veza_api_key getenv)
    = Return tt ->
  read_file Csvupload.source_csv = Return data ->
  exists b,
    calls (final (run (Csvupload.script getenv read_file veza)))
    = [ApiPost (Csvupload.push_path getenv)
         {| body_id := Csvupload.provider_id getenv;
            body_data_source_id := Csvupload.data_source_id getenv;
            csv_data := b |}]
    /\ Base64.b64decode b = Some data.
Proof.
  intros Hc Hf. exists (string_of_list_byte (Base64.b64encode data)). split.
  - apply (CsvuploadFacts.post_is_made getenv read_file veza Hc data Hf).
  - apply Base64Facts.b64decode_b64encode.
Qed.

Lemma csv_data_round_trip_witness :
  exists b,
    calls (final (run (Csvupload.script env_unset one_file veza_accepting)))
    = [ApiPost (Csvupload.push_path env_unset)
         {| body_id := PyNone; body_data_source_id := PyNone;
            csv_data := b |}]
    /\ Base64.b64decode b = Some ten_bytes.
Proof.
  apply (csv_data_round_trip env_unset one_file veza_accepting ten_bytes);
    reflexivity.
Defined.


(** ** What the model builder files *)

(** C3 at a team whose description has 1100 characters: the resource gets
    the first 255 characters, not the first 1024. *)
Theorem long_description_cut_at_255 :
  build lower_key wordy new_app = (Return tt, built_wordy)
  /\ exists r,
       lookup (PyStr "ops") (resources built_wordy) = Some r
       /\ description r = PyStr (replicate 255 "x"%char)
       /\ String.length (replicate 255 "x"%char) = 255.
Proof.
  split; [vm_compute; reflexivity|].
  eexists. split; [vm_compute; reflexivity|]. split; vm_compute; reflexivity.
Qed.

(** C4, as the specification states it, fails: a resource is not filed
    under the id the source API gave the team, so that subscripting the
    resources with that id finds nothing. *)
Lemma resource_not_keyed_by_source_id :
  ~ (forall norm src a t,
       build norm src new_app = (Return tt, a) ->
       In t (teams src) ->
       exists r, lookup (norm (t_id t)) (resources a) = Some r).
Proof.
  intros H.
  destruct (H lower_key one_team built_one_team team_T1) as [r Hr].
  - vm_compute. reflexivity.
  - left. reflexivity.
  - vm_compute in Hr. discriminate Hr.
Qed.

(** C4 (amended): in the application a run of the model builder built,
    every LocalUser and every LocalGroup is filed under the id the source
    API supplied (under the name when the id is missing or empty), every
    Resource is filed under the team's name, each key as the library's
    collections normalise it, and within each of the three collections no
    key occurs twice. *)
Theorem entities_keyed_uniquely norm src a :
  build norm src new_app = (Return tt, a) ->
  keys (local_users a)
    = map (fun u => norm (if truthy (u_id u) then u_id u else u_name u))
          (users src)
  /\ keys (local_groups a)
     = map (fun t => norm (if truthy (t_id t) then t_id t else t_name t))
           (teams src)
  /\ keys (resources a) = map (fun t => norm (t_name t)) (teams src)
  /\ NoDup (keys (local_users a))
  /\ NoDup (keys (local_groups a))
  /\ NoDup (keys (resources a)).
Proof.
  intros Hb.
  destruct (build_returns norm src a Hb)
    as (Hu & Hg & Hr & d' & -> & Hk & _).
  unfold entities. app_fields. rewrite Hk. unfold keys. rewrite !map_map.
  repeat split; assumption.
Qed.

Lemma entities_keyed_uniquely_witness :
  keys (local_users built_one_team) = [PyStr "u1"]
  /\ keys (local_groups built_one_team) = [PyStr "t1"]
  /\ keys (resources built_one_team) = [PyStr "ops"]
  /\ NoDup (keys (local_users built_one_team))
  /\ NoDup (keys (local_groups built_one_team))
  /\ NoDup (keys (resources built_one_team)).
Proof.
  apply (entities_keyed_uniquely lower_key one_team built_one_team).
  vm_compute. reflexivity.
Defined.

(** C5: every user record the model builder processed in a run that built
    the application is there as a LocalUser whose unique id is the record's
    id, whose identity list holds the record's email and nothing else,
    whose role of the record is assigned at application scope, and whose
    properties [email] and [is_billed] are the record's email and billed
    value. *)
Theorem user_record_mapped norm src a r :
  build norm src new_app = (Return tt, a) ->
  In r (users src) ->
  exists u,
    lookup (user_key norm r) (local_users a) = Some u
    /\ user_unique_id u = u_id r
    /\ identities u = [u_email r]
    /\ (exists ra, lookup (u_role r) (role_assignments u) = Some ra
                   /\ apply_to_application ra = Some true)
    /\ lookup (PyStr "email") (user_properties u) = Some (u_email r)
    /\ lookup (PyStr "is_billed") (user_properties u) = Some (u_billed r).
Proof.
  intros Hb Hin.
  destruct (build_returns norm src a Hb)
    as (Hu & _ & _ & d' & -> & _ & Hk).
  assert (Hl : lookup (user_key norm r) (map (user_entry norm) (users src))
               = Some (built_user r)).
  { apply lookup_in_nodup.
    - unfold keys. rewrite map_map. exact Hu.
    - change (In (user_entry norm r) (map (user_entry norm) (users src))).
      now apply in_map. }
  destruct (Hk _ _ Hl) as (u & Hu' & Hn & Hid & Hids & Hp & Hroles).
  exists u. app_fields. split; [exact Hu'|].
  split; [exact Hid|]. split; [exact Hids|]. split.
  - destruct (Hroles (u_role r)
                {| apply_to_application := Some true;
                   assigned_resources := [] |})
      as (ra & Hra & Hflag).
    + cbn [built_user role_assignments lookup]. now rewrite pyval_eqb_refl.
    + exists ra. split; [exact Hra | exact Hflag].
  - rewrite Hp. split; reflexivity.
Qed.

Lemma user_record_mapped_witness :
  exists u,
    lookup (user_key lower_key user_U1) (local_users built_one_team) = Some u
    /\ user_unique_id u = PyStr "U1"
    /\ identities u = [PyStr "a@x.com"]
    /\ (exists ra, lookup (PyStr "responder") (role_assignments u) = Some ra
                   /\ apply_to_application ra = Some true)
    /\ lookup (PyStr "email") (user_properties u) = Some (PyStr "a@x.com")
    /\ lookup (PyStr "is_billed") (user_properties u) = Some (PyBool true).
Proof.
  apply (user_record_mapped lower_key one_team built_one_team user_U1).
  - vm_compute. reflexivity.
  - left. reflexivity.
Defined.

(** ** Warnings of an accepted push *)

(** C6: when the push of the model builder, or of the seed variant, returns
    an answer whose warnings list is not empty, the run prints the heading
    and one line per warning, writes nothing to the error stream, and the
    process exits with status 0. *)
Theorem push_warnings_reported :
  (forall norm getenv src veza a found ws,
     build norm src new_app = (Return tt, a) ->
     OAAClient veza (ModelBuilder.veza_url getenv)
       (ModelBuilder.veza_api_key getenv) = Return tt ->
     provider_resolved veza "Lab-PagerDuty" found ->
     push_application veza "Lab-PagerDuty" (data_source_name_of a) a false
       = Return {| warnings := Some ws |} ->
     ws <> [] ->
     run (ModelBuilder.main norm getenv src veza)
     = {| final :=
            {| stdout := "-- Push succeeded with warnings:"%string
                           :: map (fun w => ("  - " ++ w)%string) ws;
               stderr := [];
               calls := provider_resolution "Lab-PagerDuty" found
                          ++ [push_call "Lab-PagerDuty" a] |};
          exit_status := 0 |})
  /\ (forall getenv veza found ws,
        OAAClient veza (Seed.veza_url getenv) (Seed.veza_api_key getenv)
          = Return tt ->
        provider_resolved veza "Sample-PagerDuty" found ->
        push_application veza "Sample-PagerDuty"
          (data_source_name_of (new_application "Sample App" "PagerDuty"))
          (new_application "Sample App" "PagerDuty") false
          = Return {| warnings := Some ws |} ->
        ws <> [] ->
        run (Seed.main getenv veza)
        = {| final :=
               {| stdout := "-- Push succeeded with warnings:"%string
                              :: map (fun w => ("  - " ++ w)%string) ws;
                  stderr := [];
                  calls := provider_resolution "Sample-PagerDuty" found
                             ++ [push_call "Sample-PagerDuty"
                                   (new_application "Sample App"
                                      "PagerDuty")] |};
             exit_status := 0 |}).
Proof.
  split.
  - intros norm getenv src veza a found ws Hb Hc Hp Hpush Hws. unfold run.
    rewrite (main_outcome norm getenv src veza a found Hb Hc Hp).
    unfold push_outcome. rewrite Hpush. unfold warning_report.
    destruct ws; [contradiction|]. reflexivity.
  - intros getenv veza found ws Hc Hp Hpush Hws. unfold run.
    rewrite (seed_main_outcome getenv veza found Hc Hp).
    unfold push_outcome. rewrite Hpush. unfold warning_report.
    destruct ws; [contradiction|]. reflexivity.
Qed.

Lemma push_warnings_reported_witness :
  run (ModelBuilder.main lower_key env_unset one_team veza_warning)
  = {| final :=
         {| stdout := ["-- Push succeeded with warnings:";
                       "  - identity a@x.com not found"];
            stderr := [];
            calls := provider_resolution "Lab-PagerDuty" None
                       ++ [push_call "Lab-PagerDuty" built_one_team] |};
       exit_status := 0 |}
  /\ run (Seed.main env_unset veza_warning)
     = {| final :=
            {| stdout := ["-- Push succeeded with warnings:";
                          "  - identity a@x.com not found"];
               stderr := [];
               calls := provider_resolution "Sample-PagerDuty" None
                          ++ [push_call "Sample-PagerDuty"
                                (new_application "Sample App" "PagerDuty")] |};
          exit_status := 0 |}.
Proof.
  split.
  - apply (proj1 push_warnings_reported lower_key env_unset one_team veza_warning
             built_one_team None ["identity a@x.com not found"%string]).
    + vm_compute. reflexivity.
    + reflexivity.
    + split; [reflexivity | intros _; eexists; reflexivity].
    + reflexivity.
    + discriminate.
  - apply (proj2 push_warnings_reported env_unset veza_warning None
             ["identity a@x.com not found"%string]).
    + reflexivity.
    + split; [reflexivity | intros _; eexists; reflexivity].
    + reflexivity.
    + discriminate.
Defined.

(** ** The catalog *)

(** C8: the model builder declares exactly ten permissions under ten
    different names, each with at least one right and only rights among
    DataRead, DataWrite, DataDelete, MetadataRead and MetadataWrite, and
    exactly nine roles, each filed under its unique id and holding exactly
    one permission, the declared permission of the same identifier, no two
    roles holding the same one; and whatever the source API answers, the
    application a run built has these permissions and these roles. *)
Theorem static_catalog :
  declare_catalog new_app = (Return tt, catalog)
  /\ List.length (custom_permissions catalog) = 10
  /\ NoDup (keys (custom_permissions catalog))
  /\ (forall n rights,
        In (n, rights) (custom_permissions catalog) ->
        rights <> [] /\ incl rights catalog_rights)
  /\ List.length (local_roles catalog) = 9
  /\ (forall k r,
        In (k, r) (local_roles catalog) ->
        k = PyStr (role_unique_id r)
        /\ role_permissions r = [role_unique_id r]
        /\ mem (PyStr (role_unique_id r)) (custom_permissions catalog) = true)
  /\ NoDup (map (fun kr => role_permissions (snd kr)) (local_roles catalog))
  /\ (forall norm src a,
        build norm src new_app = (Return tt, a) ->
        custom_permissions a = custom_permissions catalog
        /\ local_roles a = local_roles catalog).
Proof.
  split; [apply declare_catalog_returns|].
  split; [reflexivity|].
  split.
  { cbn. repeat constructor; cbn; intuition discriminate. }
  split.
  { intros n rights H. cbn in H.
    repeat (destruct H as [H|H]; [inversion H; subst; clear H|]);
      try contradiction;
      (split; [discriminate | intros x Hx; cbn in Hx |- *; intuition]). }
  split; [reflexivity|].
  split.
  { intros k r H. cbn in H.
    repeat (destruct H as [H|H]; [inversion H; subst; clear H|]);
      try contradiction; repeat split; reflexivity. }
  split.
  { cbn. repeat constructor; cbn; intuition discriminate. }
  intros norm src a Hb.
  destruct (build_returns norm src a Hb) as (_ & _ & _ & d' & -> & _).
  split; reflexivity.
Qed.

Lemma static_catalog_witness :
  custom_permissions built_one_team = custom_permissions catalog
  /\ local_roles built_one_team = local_roles catalog.
Proof.
  apply (proj2 (proj2 (proj2 (proj2 (proj2 (proj2 (proj2 static_catalog)))))))
    with (norm := lower_key) (src := one_team).
  vm_compute. reflexivity.
Defined.


(** ** The seed variant *)

(** C9: the seed variant resolves the provider the way the model builder
    does (one lookup by name, one creation when nothing is found) and then
    pushes, whatever the answer to the push is, an application none of
    whose collections has an entry. *)
Theorem seed_pushes_empty_graph :
  (forall getenv veza found,
     OAAClient veza (Seed.veza_url getenv) (Seed.veza_api_key getenv)
       = Return tt ->
     provider_resolved veza "Sample-PagerDuty" found ->
     calls (final (run (Seed.main getenv veza)))
     = provider_resolution "Sample-PagerDuty" found
         ++ [PushApplication "Sample-PagerDuty" "Sample App (PagerDuty)"
               {| name := "Sample App"; application_type := "PagerDuty";
                  local_user_properties := [];
                  resource_type_properties := [];
                  custom_permissions := []; local_roles := [];
                  local_users := []; local_groups := []; resources := [] |}
               false])
  /\ (forall norm getenv src veza a found,
        build norm src new_app = (Return tt, a) ->
        OAAClient veza (ModelBuilder.veza_url getenv)
          (ModelBuilder.veza_api_key getenv) = Return tt ->
        provider_resolved veza "Lab-PagerDuty" found ->
        calls (final (run (ModelBuilder.main norm getenv src veza)))
        = provider_resolution "Lab-PagerDuty" found
            ++ [PushApplication "Lab-PagerDuty"
                  (name a ++ " (" ++ application_type a ++ ")")%string
                  a false]).
Proof.
  split.
  - intros getenv veza found Hc Hp.
    apply (calls_push_outcome (Seed.main getenv veza) veza "Sample-PagerDuty"
             (new_application "Sample App" "PagerDuty") found).
    apply seed_main_outcome; assumption.
  - intros norm getenv src veza a found Hb Hc Hp.
    apply (calls_push_outcome (ModelBuilder.main norm getenv src veza) veza
             "Lab-PagerDuty" a found).
    apply main_outcome; assumption.
Qed.

Lemma seed_pushes_empty_graph_witness :
  calls (final (run (Seed.main env_unset veza_accepting)))
  = [GetProvider "Sample-PagerDuty";
     CreateProvider "Sample-PagerDuty" "application";
     PushApplication "Sample-PagerDuty" "Sample App (PagerDuty)"
       {| name := "Sample App"; application_type := "PagerDuty";
          local_user_properties := []; resource_type_properties := [];
          custom_permissions := []; local_roles := [];
          local_users := []; local_groups := []; resources := [] |}
       false].
Proof.
  apply (proj1 seed_pushes_empty_graph env_unset veza_accepting None).
  - reflexivity.
  - split; [reflexivity | intros _; eexists; reflexivity].
Defined.

(** ** Members that are not known users *)



End Spec.

(** * Further properties of the scripts *)

Module Extra.
Import ModelBuilder Scenarios MoreScenarios ModelBuilderFacts PushFacts.
Local Open Scope list_scope.

(** ** csvupload.py *)

(** X1: when the sink's client cannot be constructed, the CSV pusher prints
    the two lines of its handler, the second being the text of the error,
    and exits with status 1; the file is not read and nothing is posted. *)
Theorem csv_connection_failure getenv read_file veza e :
  OAAClient veza (Csvupload.veza_url getenv) (Csvupload.veza_api_key getenv)
    = Raise (OAAClientError e) ->
  run (Csvupload.script getenv read_file veza)
  = {| final := {| stdout := ["Connecting to Veza";
                              "Error connecting to Veza tenant";
                              printed e];
                   stderr := []; calls := [] |};
       exit_status := 1 |}.
Proof. apply CsvuploadFacts.connection_refused. Qed.

Lemma csv_connection_failure_witness :
  run (Csvupload.script env_unset one_file veza_unreachable)
  = {| final := {| stdout := ["Connecting to Veza";
                              "Error connecting to Veza tenant";
                              printed unauthenticated];
                   stderr := []; calls := [] |};
       exit_status := 1 |}.
Proof.
  apply (csv_connection_failure env_unset one_file veza_unreachable
           unauthenticated).
  reflexivity.
Defined.

(** X2: when the client is constructed, the file is read and the sink
    accepts the POST, the CSV pusher prints its four progress lines, the
    last being "Push succeeded", makes exactly one call, the POST to the
    path built from the provider and data source identifiers, and exits
    with status 0. *)
Theorem csv_push_success getenv read_file veza data :
  OAAClient veza (Csvupload.veza_url getenv) (Csvupload.veza_api_key getenv)
    = Return tt ->
  read_file Csvupload.source_csv = Return data ->
  api_post veza (Csvupload.push_path getenv) (Csvupload.body_of getenv data)
    = Return tt ->
  run (Csvupload.script getenv read_file veza)
  = {| final :=
         {| stdout := ["Connecting to Veza"; "Loading CSV file";
                       "Pushing data to Veza"; "Push succeeded"];
            stderr := [];
            calls := [ApiPost
                        ("/api/v1/providers/custom/"
                           ++ str (getenv "VEZA_Provider_id")
                           ++ "/datasources/" ++ str (getenv "VEZA_Id")
                           ++ ":push_csv")%string
                        (Csvupload.body_of getenv data)] |};
       exit_status := 0 |}.
Proof.
  intros Hc Hf Hp.
  apply (CsvuploadFacts.push_accepted getenv read_file veza Hc data Hf Hp).
Qed.

Lemma csv_push_success_witness :
  run (Csvupload.script env_unset one_file veza_accepting)
  = {| final :=
         {| stdout := ["Connecting to Veza"; "Loading CSV file";
                       "Pushing data to Veza"; "Push succeeded"];
            stderr := [];
            calls := [ApiPost
                        "/api/v1/providers/custom/None/datasources/None:push_csv"
                        (Csvupload.body_of env_unset ten_bytes)] |};
       exit_status := 0 |}.
Proof.
  apply (csv_push_success env_unset one_file veza_accepting ten_bytes);
    reflexivity.
Defined.

(** X3: when the source file cannot be opened, the CSV pusher stops after
    "Loading CSV file" with the uncaught [OSError]: exit status 1, nothing
    posted. *)
Theorem csv_missing_file getenv read_file veza msg :
  OAAClient veza (Csvupload.veza_url getenv) (Csvupload.veza_api_key getenv)
    = Return tt ->
  read_file Csvupload.source_csv = Raise (OSError msg) ->
  run (Csvupload.script getenv read_file veza)
  = {| final := {| stdout := ["Connecting to Veza"; "Loading CSV file"];
                   stderr := [Traceback (OSError msg)]; calls := [] |};
       exit_status := 1 |}.
Proof.
  intros Hc Hf. unfold run, Csvupload.script.
  unfold bind at 1. unfold print at 1, modify.
  unfold bind at 1. unfold try_except at 1, lift at 1. rewrite Hc.
  unfold bind at 1. unfold print at 1, modify.
  unfold bind at 1. unfold lift at 1. rewrite Hf. reflexivity.
Qed.

Lemma csv_missing_file_witness :
  run (Csvupload.script env_unset no_file veza_accepting)
  = {| final := {| stdout := ["Connecting to Veza"; "Loading CSV file"];
                   stderr := [Traceback (OSError "No such file or directory")];
                   calls := [] |};
       exit_status := 1 |}.
Proof.
  apply (csv_missing_file env_unset no_file veza_accepting
           "No such file or directory"); reflexivity.
Defined.


(** ** python.oaa.py: the entity loops *)

Lemma prefix_length n : forall s,
  String.length (prefix n s) = Nat.min n (String.length s).
Proof.
  induction n as [|n IH]; intros [|c s]; cbn; try reflexivity.
  now rewrite IH.
Qed.

Lemma prefix_split n : forall s,
  exists rest, s = (prefix n s ++ rest)%string.
Proof.
  induction n as [|n IH]; intros s.
  - exists s. now destruct s.
  - destruct s as [|c s]; [now exists EmptyString|].
    destruct (IH s) as [rest Hr]. exists rest. cbn. now rewrite <- Hr.
Qed.

Lemma prefix_short n : forall s, String.length s <= n -> prefix n s = s.
Proof.
  induction n as [|n IH]; intros [|c s] H; cbn in *; try reflexivity; try lia.
  rewrite IH by lia. reflexivity.
Qed.

(** X4: the description the resource loop computes.  A team without a
    description, or with an empty one, gets [None].  A team with a text
    gets the text's first 255 characters: the text itself when it has at
    most 255 characters, and exactly 255 characters when it is longer. *)
Theorem resource_description_bounds t :
  (truthy (t_description t) = false -> resource_description t = Return PyNone)
  /\ (forall s,
        t_description t = PyStr s -> s <> EmptyString ->
        resource_description t = Return (PyStr (prefix 255 s))
        /\ (exists rest, s = (prefix 255 s ++ rest)%string)
        /\ String.length (prefix 255 s) = Nat.min 255 (String.length s)
        /\ (String.length s <= 255 -> prefix 255 s = s)
        /\ (255 < String.length s -> String.length (prefix 255 s) = 255)).
Proof.
  split.
  - intros H. unfold resource_description. now rewrite H.
  - intros s Hs Hne. unfold resource_description. rewrite Hs.
    destruct s as [|c s]; [contradiction|].
    cbn [truthy slice_to]. split; [reflexivity|].
    split; [apply prefix_split|].
    split; [apply prefix_length|].
    split; [apply prefix_short|].
    intros Hlong. rewrite prefix_length. lia.
Qed.

Lemma resource_description_bounds_witness :
  resource_description team_T1 = Return (PyStr (prefix 255 "on call"))
  /\ (exists rest, "on call"%string = (prefix 255 "on call" ++ rest)%string)
  /\ String.length (prefix 255 "on call") = Nat.min 255 (String.length "on call")
  /\ (String.length "on call" <= 255 -> prefix 255 "on call" = "on call"%string)
  /\ (255 < String.length "on call" ->
      String.length (prefix 255 "on call") = 255).
Proof.
  apply (proj2 (resource_description_bounds team_T1) "on call"%string).
  - reflexivity.
  - discriminate.
Defined.

Lemma descriptions_sliced norm ts : forall a a',
  schema_defined a = true ->
  for_each ts (add_team_resource norm) a = (Return tt, a') ->
  forall t, In t ts -> exists d, resource_description t = Return d.
Proof.
  induction ts as [|t0 ts IH]; intros a a' Hs Hres t Hin; [destruct Hin|].
  cbn [for_each] in Hres. unfold bind in Hres.
  rewrite add_team_resource_step in Hres by exact Hs.
  destruct (lookup (resource_key norm t0) (resources a)); [discriminate|].
  destruct (resource_description t0) as [d0|x0] eqn:Hd0; [|discriminate].
  destruct Hin as [<-|Hin]; [now exists d0|].
  eapply IH; [|exact Hres|exact Hin]. exact Hs.
Qed.

Lemma built_descriptions norm src e :
  add_entities norm src catalog = (Return tt, e) ->
  forall t, In t (teams src) -> exists d, resource_description t = Return d.
Proof.
  unfold add_entities. unfold bind at 1.
  destruct (for_each (users src) (add_user norm) catalog)
    as [[[]|x] a1] eqn:Hu; [|discriminate].
  apply add_users_loop in Hu; [|apply schema_defined_catalog|constructor].
  destruct Hu as [-> _]. unfold bind at 1.
  match goal with |- context [for_each _ (add_group norm) ?st] =>
    destruct (for_each (teams src) (add_group norm) st)
      as [[[]|y] a2] eqn:Hgr end; [|discriminate].
  apply add_groups_loop in Hgr; [|constructor]. destruct Hgr as [-> _].
  intros Hres. eapply descriptions_sliced; [|exact Hres].
  apply schema_defined_catalog.
Qed.

(** X5: every team the model builder processed in a run that built the
    application is there twice: as a LocalGroup with the team's name and
    id, and as a Resource of type "team", filed under the team's name, with
    the description of line 73 and the properties [pagerduty_id],
    [summary] and [default_role] read from the team's [id], [summary] and
    [default_role]. *)
Theorem team_record_mapped norm src a t :
  build norm src new_app = (Return tt, a) ->
  In t (teams src) ->
  lookup (group_key norm t) (local_groups a)
    = Some {| group_name := t_name t; group_unique_id := t_id t |}
  /\ exists d,
       resource_description t = Return d
       /\ lookup (norm (t_name t)) (resources a)
          = Some {| resource_name := t_name t; resource_type := "team";
                    description := d;
                    resource_properties :=
                      [(PyStr "pagerduty_id", t_id t);
                       (PyStr "summary", t_summary t);
                       (PyStr "default_role", t_default_role t)] |}.
Proof.
  intros Hb Hin.
  assert (Hd : exists d, resource_description t = Return d).
  { rewrite build_phases in Hb.
    destruct (add_entities norm src catalog) as [[[]|x] e] eqn:He;
      [|discriminate].
    apply (built_descriptions norm src e He t Hin). }
  destruct (build_returns norm src a Hb) as (_ & Hg & Hr & d' & -> & _).
  unfold entities. app_fields. split.
  - apply lookup_in_nodup.
    + unfold keys. rewrite map_map. exact Hg.
    + change (In (group_entry norm t) (map (group_entry norm) (teams src))).
      now apply in_map.
  - destruct Hd as [d Hd]. exists d. split; [exact Hd|].
    assert (E : built_resource t
                = {| resource_name := t_name t; resource_type := "team";
                     description := d;
                     resource_properties :=
                       [(PyStr "pagerduty_id", t_id t);
                        (PyStr "summary", t_summary t);
                        (PyStr "default_role", t_default_role t)] |}).
    { unfold built_resource, description_of. now rewrite Hd. }
    rewrite <- E. apply lookup_in_nodup.
    + unfold keys. rewrite map_map. exact Hr.
    + change (In (resource_entry norm t)
                 (map (resource_entry norm) (teams src))).
      now apply in_map.
Qed.

Lemma team_record_mapped_witness :
  lookup (group_key lower_key team_T1) (local_groups built_one_team)
    = Some {| group_name := PyStr "Ops"; group_unique_id := PyStr "T1" |}
  /\ exists d,
       resource_description team_T1 = Return d
       /\ lookup (lower_key (PyStr "Ops")) (resources built_one_team)
          = Some {| resource_name := PyStr "Ops"; resource_type := "team";
                    description := d;
                    resource_properties :=
                      [(PyStr "pagerduty_id", PyStr "T1");
                       (PyStr "summary", PyStr "Ops");
                       (PyStr "default_role", PyStr "manager")] |}.
Proof.
  apply (team_record_mapped lower_key one_team built_one_team team_T1).
  - vm_compute. reflexivity.
  - left. reflexivity.
Defined.

(** ** python.oaa.py and seed.python.oaa.py: the push phase *)

(** X7: the client construction and the provider calls of the model
    builder are outside its [try]: when the client cannot be constructed,
    or the provider lookup raises, the run ends with the traceback of the
    push/API error and exit status 1, and the application is not pushed. *)
Theorem provider_failure_uncaught norm getenv src veza a e :
  build norm src new_app = (Return tt, a) ->
  (OAAClient veza (ModelBuilder.veza_url getenv)
     (ModelBuilder.veza_api_key getenv) = Raise (OAAClientError e) ->
   run (ModelBuilder.main norm getenv src veza)
   = {| final := {| stdout := []; stderr := [Traceback (OAAClientError e)];
                    calls := [] |};
        exit_status := 1 |})
  /\ (OAAClient veza (ModelBuilder.veza_url getenv)
        (ModelBuilder.veza_api_key getenv) = Return tt ->
      get_provider veza "Lab-PagerDuty" = Raise (OAAClientError e) ->
      run (ModelBuilder.main norm getenv src veza)
      = {| final := {| stdout := [];
                       stderr := [Traceback (OAAClientError e)];
                       calls := [GetProvider "Lab-PagerDuty"] |};
           exit_status := 1 |})
  /\ (OAAClient veza (ModelBuilder.veza_url getenv)
        (ModelBuilder.veza_api_key getenv) = Return tt ->
      get_provider veza "Lab-PagerDuty" = Return None ->
      create_provider veza "Lab-PagerDuty" "application"
        = Raise (OAAClientError e) ->
      run (ModelBuilder.main norm getenv src veza)
      = {| final := {| stdout := [];
                       stderr := [Traceback (OAAClientError e)];
                       calls := [GetProvider "Lab-PagerDuty";
                                 CreateProvider "Lab-PagerDuty"
                                   "application"] |};
           exit_status := 1 |}).
Proof.
  intros Hb. repeat split.
  - intros Hc. unfold run, ModelBuilder.main.
    unfold bind at 1. unfold on_object at 1. rewrite Hb. cbn [snd]. cbv zeta.
    unfold bind at 1. unfold lift at 1. rewrite Hc. reflexivity.
  - intros Hc Hg. unfold run, ModelBuilder.main.
    unfold bind at 1. unfold on_object at 1. rewrite Hb. cbn [snd]. cbv zeta.
    unfold bind at 1. unfold lift at 1. rewrite Hc.
    unfold bind at 1. unfold call at 1, bind at 1, modify at 1, lift at 1.
    rewrite Hg. reflexivity.
  - intros Hc Hg Hcr. unfold run, ModelBuilder.main.
    unfold bind at 1. unfold on_object at 1. rewrite Hb. cbn [snd]. cbv zeta.
    unfold bind at 1. unfold lift at 1. rewrite Hc.
    unfold bind at 1. unfold call at 1, bind at 1, modify at 1, lift at 1.
    rewrite Hg. unfold bind at 1. unfold bind at 1.
    unfold call at 1, bind at 1, modify at 1, lift at 1.
    rewrite Hcr. reflexivity.
Qed.

Lemma provider_failure_uncaught_witness :
  run (ModelBuilder.main lower_key env_unset one_team veza_lookup_failing)
  = {| final := {| stdout := [];
                   stderr := [Traceback (OAAClientError unauthenticated)];
                   calls := [GetProvider "Lab-PagerDuty"] |};
       exit_status := 1 |}.
Proof.
  apply (proj1 (proj2 (provider_failure_uncaught lower_key env_unset one_team
                         veza_lookup_failing built_one_team unauthenticated
                         ltac:(vm_compute; reflexivity))));
    reflexivity.
Defined.

(** X8: an accepted push whose answer has no [warnings] key, or an empty
    list under it, is silent: the model builder and the seed variant print
    nothing, write nothing to the error stream, and exit with status 0. *)
Theorem accepted_push_is_silent :
  (forall norm getenv src veza a found response,
     build norm src new_app = (Return tt, a) ->
     OAAClient veza (ModelBuilder.veza_url getenv)
       (ModelBuilder.veza_api_key getenv) = Return tt ->
     provider_resolved veza "Lab-PagerDuty" found ->
     push_application veza "Lab-PagerDuty" (data_source_name_of a) a false
       = Return response ->
     warnings response = None \/ warnings response = Some [] ->
     run (ModelBuilder.main norm getenv src veza)
     = {| final :=
            {| stdout := []; stderr := [];
               calls := provider_resolution "Lab-PagerDuty" found
                          ++ [push_call "Lab-PagerDuty" a] |};
          exit_status := 0 |})
  /\ (forall getenv veza found response,
        OAAClient veza (Seed.veza_url getenv) (Seed.veza_api_key getenv)
          = Return tt ->
        provider_resolved veza "Sample-PagerDuty" found ->
        push_application veza "Sample-PagerDuty"
          (data_source_name_of (new_application "Sample App" "PagerDuty"))
          (new_application "Sample App" "PagerDuty") false
          = Return response ->
        warnings response = None \/ warnings response = Some [] ->
        run (Seed.main getenv veza)
        = {| final :=
               {| stdout := []; stderr := [];
                  calls := provider_resolution "Sample-PagerDuty" found
                             ++ [push_call "Sample-PagerDuty"
                                   (new_application "Sample App"
                                      "PagerDuty")] |};
             exit_status := 0 |}).
Proof.
  split.
  - intros norm getenv src veza a found response Hb Hc Hp Hpush Hw. unfold run.
    rewrite (main_outcome norm getenv src veza a found Hb Hc Hp).
    unfold push_outcome. rewrite Hpush. unfold warning_report.
    destruct Hw as [-> | ->]; reflexivity.
  - intros getenv veza found response Hc Hp Hpush Hw. unfold run.
    rewrite (seed_main_outcome getenv veza found Hc Hp).
    unfold push_outcome. rewrite Hpush. unfold warning_report.
    destruct Hw as [-> | ->]; reflexivity.
Qed.

Lemma accepted_push_is_silent_witness :
  run (ModelBuilder.main lower_key env_unset one_team veza_accepting)
  = {| final :=
         {| stdout := []; stderr := [];
            calls := provider_resolution "Lab-PagerDuty" None
                       ++ [push_call "Lab-PagerDuty" built_one_team] |};
       exit_status := 0 |}.
Proof.
  apply (proj1 accepted_push_is_silent lower_key env_unset one_team veza_accepting
           built_one_team None {| warnings := None |}).
  - vm_compute. reflexivity.
  - reflexivity.
  - split; [reflexivity | intros _; eexists; reflexivity].
  - reflexivity.
  - left. reflexivity.
Defined.

(** X9: whatever the source API answers, the application the model builder
    pushes still has the name and type it was created with, so the push
    goes to provider "Lab-PagerDuty" under the data source name
    "Sample App (PagerDuty)", without saving the JSON; when the provider
    was found it is not created again. *)
Theorem push_call_arguments norm getenv src veza a p :
  build norm src new_app = (Return tt, a) ->
  OAAClient veza (ModelBuilder.veza_url getenv)
    (ModelBuilder.veza_api_key getenv) = Return tt ->
  get_provider veza "Lab-PagerDuty" = Return (Some p) ->
  name a = "Sample App"%string
  /\ application_type a = "PagerDuty"%string
  /\ calls (final (run (ModelBuilder.main norm getenv src veza)))
     = [GetProvider "Lab-PagerDuty";
        PushApplication "Lab-PagerDuty" "Sample App (PagerDuty)" a false].
Proof.
  intros Hb Hc Hg.
  destruct (build_returns norm src a Hb) as (_ & _ & _ & d' & Ha & _).
  assert (Hn : name a = "Sample App"%string) by (rewrite Ha; reflexivity).
  assert (Ht : application_type a = "PagerDuty"%string)
    by (rewrite Ha; reflexivity).
  split; [exact Hn|]. split; [exact Ht|].
  rewrite (calls_push_outcome (ModelBuilder.main norm getenv src veza) veza
             "Lab-PagerDuty" a (Some p)).
  - unfold provider_resolution, push_call, data_source_name_of.
    rewrite Hn, Ht. reflexivity.
  - apply main_outcome; [exact Hb | exact Hc |].
    split; [exact Hg | discriminate].
Qed.

Lemma push_call_arguments_witness :
  name built_one_team = "Sample App"%string
  /\ application_type built_one_team = "PagerDuty"%string
  /\ calls (final (run (ModelBuilder.main lower_key env_unset one_team veza_known)))
     = [GetProvider "Lab-PagerDuty";
        PushApplication "Lab-PagerDuty" "Sample App (PagerDuty)"
          built_one_team false].
Proof.
  apply (push_call_arguments lower_key env_unset one_team veza_known built_one_team
           "provider-1"%string).
  - vm_compute. reflexivity.
  - reflexivity.
  - reflexivity.
Defined.


(** ** python.oaa.py: the member loop *)

Import Membership.

Lemma add_once_incl A (eqb : A -> A -> bool) x l : incl l (add_once eqb x l).
Proof.
  unfold add_once. destruct (existsb (eqb x) l);
    [apply incl_refl | apply incl_appl, incl_refl].
Qed.

Lemma add_once_in_str g l : In g (add_once String.eqb g l).
Proof.
  unfold add_once. destruct (existsb (String.eqb g) l) eqn:E.
  - apply existsb_exists in E as (y & Hy & Heq).
    apply String.eqb_eq in Heq. now subst.
  - apply in_or_app. right. now left.
Qed.

Lemma add_once_in_key k l : In k (add_once pyval_eqb k l).
Proof.
  unfold add_once. destruct (existsb (pyval_eqb k) l) eqn:E.
  - apply existsb_exists in E as (y & Hy & Heq).
    destruct (pyval_eqb_spec k y); [now subst | discriminate].
  - apply in_or_app. right. now left.
Qed.

Lemma user_grown_refl u : user_grown u u.
Proof.
  split; [apply incl_refl|]. intros role ra H. exists ra.
  split; [exact H | apply incl_refl].
Qed.

Lemma user_grown_trans u v w : user_grown u v -> user_grown v w -> user_grown u w.
Proof.
  intros [G1 R1] [G2 R2]. split; [eapply incl_tran; eassumption|].
  intros role ra H. destruct (R1 _ _ H) as (ra1 & H1 & I1).
  destruct (R2 _ _ H1) as (ra2 & H2 & I2). exists ra2.
  split; [exact H2 | eapply incl_tran; eassumption].
Qed.

Lemma users_grown_refl d : users_grown d d.
Proof. intros k u H. exists u. split; [exact H | apply user_grown_refl]. Qed.

Lemma users_grown_trans d1 d2 d3 :
  users_grown d1 d2 -> users_grown d2 d3 -> users_grown d1 d3.
Proof.
  intros H1 H2 k u H. destruct (H1 _ _ H) as (u1 & L1 & G1).
  destruct (H2 _ _ L1) as (u2 & L2 & G2). exists u2.
  split; [exact L2 | eapply user_grown_trans; eassumption].
Qed.

Lemma users_grown_store d k u u' :
  lookup k d = Some u -> user_grown u u' -> users_grown d (store k u' d).
Proof.
  intros Hl Hg k0 u0 H0. destruct (pyval_eqb_spec k0 k) as [->|Hne].
  - rewrite lookup_store_same. exists u'. split; [reflexivity|]. congruence.
  - rewrite lookup_store_other by assumption. exists u0.
    split; [exact H0 | apply user_grown_refl].
Qed.

Lemma member_assigned_grown norm d d' res tid m :
  users_grown d d' -> member_assigned norm d res tid m ->
  member_assigned norm d' res tid m.
Proof.
  intros Hg (u & ra & Hu & Hra & Hres & Hgrp).
  destruct (Hg _ _ Hu) as (u' & Hu' & Hinc & Hroles).
  destruct (Hroles _ _ Hra) as (ra' & Hra' & Hi).
  exists u', ra'. repeat split; auto.
Qed.

Lemma assign_role_grown role res u :
  user_grown u (assign_role role [res] None u).
Proof.
  split; [apply incl_refl|]. intros r ra H. cbn [assign_role role_assignments].
  destruct (pyval_eqb_spec r role) as [->|Hne].
  - rewrite lookup_store_same, H. eexists. split; [reflexivity|].
    cbn. apply add_once_incl.
  - rewrite lookup_store_other by assumption. exists ra.
    split; [exact H | apply incl_refl].
Qed.

Lemma assign_member_effect norm res tid m a a' :
  assign_member norm res tid m a = (Return tt, a') ->
  a' = set_local_users (local_users a') a
  /\ users_grown (local_users a) (local_users a')
  /\ member_assigned norm (local_users a') res tid m.
Proof.
  unfold assign_member, getitem, LocalUser_add_role, LocalUser_add_group,
    update_user.
  destruct (lookup (norm (m_user_id m)) (local_users a)) as [u|] eqn:Hl.
  - unfold bind, get, modify, ret.
    repeat first [rewrite Hl | rewrite lookup_store_same | progress app_fields].
    intros [= <-]. app_fields. split; [reflexivity|]. split.
    + eapply users_grown_trans.
      * eapply users_grown_store; [exact Hl | apply assign_role_grown].
      * eapply users_grown_store; [apply lookup_store_same|].
        split; [cbn; apply add_once_incl|].
        intros r ra H. exists ra. split; [exact H | apply incl_refl].
    + eexists. eexists. rewrite lookup_store_same.
      split; [reflexivity|]. cbn [role_assignments groups assign_role].
      rewrite lookup_store_same. split; [reflexivity|].
      cbn [assigned_resources fold_left].
      split; [apply add_once_in_key | apply add_once_in_str].
  - unfold bind, get, raise. rewrite Hl. discriminate.
Qed.

Lemma assign_members_effect norm res tid ms : forall a a',
  for_each ms (assign_member norm res tid) a = (Return tt, a') ->
  a' = set_local_users (local_users a') a
  /\ users_grown (local_users a) (local_users a')
  /\ forall m, In m ms -> member_assigned norm (local_users a') res tid m.
Proof.
  induction ms as [|m ms IH]; intros a a'; cbn [for_each].
  - unfold ret. intros [= <-]. split; [now destruct a|].
    split; [apply users_grown_refl | intros m []].
  - unfold bind.
    destruct (assign_member norm res tid m a) as [[[]|x] a1] eqn:Hm;
      [|discriminate].
    apply assign_member_effect in Hm as (E1 & G1 & A1).
    intros Hrest. apply IH in Hrest as (E2 & G2 & A2).
    split; [rewrite E2, E1; reflexivity|].
    split; [eapply users_grown_trans; eassumption|].
    intros m0 [<-|Hin]; [|now apply A2].
    eapply member_assigned_grown; eassumption.
Qed.

Lemma assign_teams_effect norm src ks : forall a a',
  for_each ks (assign_team norm src) a = (Return tt, a') ->
  a' = set_local_users (local_users a') a
  /\ users_grown (local_users a) (local_users a')
  /\ forall k r m,
       In k ks -> lookup (norm k) (resources a) = Some r ->
       In m (team_members src r) ->
       member_assigned norm (local_users a') (norm k)
         (dict_get (PyStr "pagerduty_id") (resource_properties r)) m.
Proof.
  induction ks as [|k ks IH]; intros a a'; cbn [for_each].
  - unfold ret. intros [= <-]. split; [now destruct a|].
    split; [apply users_grown_refl | intros k r m []].
  - unfold bind.
    destruct (assign_team norm src k a) as [[[]|x] a1] eqn:Ht; [|discriminate].
    intros Hrest. apply IH in Hrest as (E2 & G2 & A2).
    destruct (lookup (norm k) (resources a)) as [r|] eqn:Hl.
    + rewrite (assign_team_found norm src k a r Hl) in Ht.
      apply assign_members_effect in Ht as (E1 & G1 & A1).
      split; [rewrite E2, E1; reflexivity|].
      split; [eapply users_grown_trans; eassumption|].
      intros k0 r0 m0 [<-|Hin] Hl0 Hm0.
      * rewrite Hl in Hl0. injection Hl0 as <-.
        eapply member_assigned_grown; [exact G2|]. now apply A1.
      * apply A2; [exact Hin | | exact Hm0].
        rewrite E1. app_fields. exact Hl0.
    + rewrite (assign_team_missing norm src k a Hl) in Ht. discriminate Ht.
Qed.

(** X10: in the application a run of the model builder built, every member
    of every team is a user who holds the member's role scoped to the
    team's resource and who belongs to the group named by the text of the
    team's id. *)
Theorem member_record_mapped norm src a t m :
  (forall k, norm (norm k) = norm k) ->
  build norm src new_app = (Return tt, a) ->
  In t (teams src) ->
  In m (members src (members_url (t_id t))) ->
  exists u ra,
    lookup (norm (m_user_id m)) (local_users a) = Some u
    /\ lookup (m_role m) (role_assignments u) = Some ra
    /\ In (norm (t_name t)) (assigned_resources ra)
    /\ In (str (t_id t)) (groups u).
Proof.
  intros Hidem Hb Ht Hm.
  destruct (build_returns norm src a Hb) as (_ & _ & Hr & _).
  rewrite build_phases in Hb.
  destruct (add_entities norm src catalog) as [[[]|x] e] eqn:He;
    [|discriminate].
  destruct (add_entities_returns norm src e He) as (-> & _).
  unfold assign_roles, bind, get in Hb.
  apply assign_teams_effect in Hb as (_ & _ & Hall).
  destruct (keys_entities norm src) as (_ & _ & Kr).
  specialize (Hall (resource_key norm t) (built_resource t) m).
  unfold resource_key in Hall. rewrite Hidem in Hall. apply Hall.
  - rewrite Kr. now apply (in_map (resource_key norm)).
  - apply lookup_in_nodup; [now rewrite Kr|].
    change (In (resource_entry norm t)
               (map (resource_entry norm) (teams src))).
    now apply in_map.
  - exact Hm.
Qed.

Lemma member_record_mapped_witness :
  exists u ra,
    lookup (lower_key (PyStr "U1")) (local_users built_one_team) = Some u
    /\ lookup (PyStr "manager") (role_assignments u) = Some ra
    /\ In (lower_key (PyStr "Ops")) (assigned_resources ra)
    /\ In "T1"%string (groups u).
Proof.
  apply (member_record_mapped lower_key one_team built_one_team team_T1
           {| m_user_id := PyStr "U1"; m_role := PyStr "manager" |}).
  - apply lower_key_idem.
  - vm_compute. reflexivity.
  - left. reflexivity.
  - left. reflexivity.
Defined.

(** ** seed.python.oaa.py *)

(** X12: when the push of the seed variant raises a push/API error, the
    run writes the error's code, message and status code on one line of
    the error stream, then one line per detail, and falls through to the
    end of [main]: the process exits with status 0. *)
Theorem seed_refused_push_reported getenv veza found e :
  OAAClient veza (Seed.veza_url getenv) (Seed.veza_api_key getenv)
    = Return tt ->
  provider_resolved veza "Sample-PagerDuty" found ->
  push_application veza "Sample-PagerDuty" "Sample App (PagerDuty)"
    (new_application "Sample App" "PagerDuty") false
    = Raise (OAAClientError e) ->
  run (Seed.main getenv veza)
  = {| final :=
         {| stdout := [];
            stderr :=
              ErrLine ("-- Error: " ++ error e ++ ": " ++ message e ++ " ("
                         ++ str_N (status_code e) ++ ")")%string
                :: map (fun d => ErrLine ("  -- " ++ d)%string)
                       (detail_list e);
            calls := provider_resolution "Sample-PagerDuty" found
                       ++ [push_call "Sample-PagerDuty"
                             (new_application "Sample App" "PagerDuty")] |};
       exit_status := 0 |}.
Proof.
  intros Hc Hp Hpush. unfold run.
  rewrite (seed_main_outcome getenv veza found Hc Hp).
  unfold push_outcome.
  change (data_source_name_of (new_application "Sample App" "PagerDuty"))
    with "Sample App (PagerDuty)"%string.
  rewrite Hpush. reflexivity.
Qed.

Lemma seed_refused_push_reported_witness :
  run (Seed.main env_unset veza_refusing)
  = {| final :=
         {| stdout := [];
            stderr :=
              [ErrLine "-- Error: INVALID_ARGUMENT: bad payload (400)";
               ErrLine "  -- users[0]: unknown role";
               ErrLine "  -- teams[0]: no owner"];
            calls := provider_resolution "Sample-PagerDuty" None
                       ++ [push_call "Sample-PagerDuty"
                             (new_application "Sample App" "PagerDuty")] |};
       exit_status := 0 |}.
Proof.
  apply (seed_refused_push_reported env_unset veza_refusing None refusal).
  - reflexivity.
  - split; [reflexivity | intros _; eexists; reflexivity].
  - reflexivity.
Defined.

(** X13: the client construction and the provider calls of the seed
    variant are outside its [try]: when the client cannot be constructed,
    or the provider lookup or creation raises, the run ends with the
    traceback of the push/API error and exit status 1, and nothing is
    pushed. *)
Theorem seed_provider_failure_uncaught getenv veza e :
  (OAAClient veza (Seed.veza_url getenv) (Seed.veza_api_key getenv)
     = Raise (OAAClientError e) ->
   run (Seed.main getenv veza)
   = {| final := {| stdout := []; stderr := [Traceback (OAAClientError e)];
                    calls := [] |};
        exit_status := 1 |})
  /\ (OAAClient veza (Seed.veza_url getenv) (Seed.veza_api_key getenv)
        = Return tt ->
      get_provider veza "Sample-PagerDuty" = Raise (OAAClientError e) ->
      run (Seed.main getenv veza)
      = {| final := {| stdout := [];
                       stderr := [Traceback (OAAClientError e)];
                       calls := [GetProvider "Sample-PagerDuty"] |};
           exit_status := 1 |})
  /\ (OAAClient veza (Seed.veza_url getenv) (Seed.veza_api_key getenv)
        = Return tt ->
      get_provider veza "Sample-PagerDuty" = Return None ->
      create_provider veza "Sample-PagerDuty" "application"
        = Raise (OAAClientError e) ->
      run (Seed.main getenv veza)
      = {| final := {| stdout := [];
                       stderr := [Traceback (OAAClientError e)];
                       calls := [GetProvider "Sample-PagerDuty";
                                 CreateProvider "Sample-PagerDuty"
                                   "application"] |};
           exit_status := 1 |}).
Proof.
  repeat split.
  - intros Hc. unfold run, Seed.main. cbv zeta.
    unfold bind at 1. unfold lift at 1. rewrite Hc. reflexivity.
  - intros Hc Hg. unfold run, Seed.main. cbv zeta.
    unfold bind at 1. unfold lift at 1. rewrite Hc.
    unfold bind at 1. unfold call at 1, bind at 1, modify at 1, lift at 1.
    rewrite Hg. reflexivity.
  - intros Hc Hg Hcr. unfold run, Seed.main. cbv zeta.
    unfold bind at 1. unfold lift at 1. rewrite Hc.
    unfold bind at 1. unfold call at 1, bind at 1, modify at 1, lift at 1.
    rewrite Hg. unfold bind at 1. unfold bind at 1.
    unfold call at 1, bind at 1, modify at 1, lift at 1.
    rewrite Hcr. reflexivity.
Qed.

Lemma seed_provider_failure_uncaught_witness :
  run (Seed.main env_unset veza_unreachable)
  = {| final := {| stdout := [];
                   stderr := [Traceback (OAAClientError unauthenticated)];
                   calls := [] |};
       exit_status := 1 |}.
Proof.
  apply (proj1 (seed_provider_failure_uncaught env_unset veza_unreachable
                  unauthenticated)).
  reflexivity.
Defined.

End Extra.
